(** * VawFileReader: header resolution and date normalisation

    A shallow embedding of
    [dataflow/DataReaders/VawFileReaders/VawFileReader.py] and the
    properties of its header parser, glacier resolution and the two date
    normalisers.

    Conventions of the embedding:
    - a Python [str] is a list of characters, each character being a code
      point below 256 (the files are ASCII apart from the copyright sign,
      code point 169);
    - a raised exception is the left injection of a sum; methods that touch
      the class-level header dictionary, the file system or the console run
      in a state-and-exception monad over [World];
    - a [dict] is an association list in insertion order, because the code
      iterates over [items()] and [values()]. *)

From Stdlib Require Import ZArith List Ascii String Bool Lia DecimalString.
From Stdlib Require Import Permutation.
Import ListNotations.

Local Open Scope Z_scope.

(** ** Python values used by the module *)

Module Py.

Definition str := list ascii.

Definition lit (s : string) : str := list_ascii_of_string s.

Fixpoint str_eqb (a b : str) : bool :=
  match a, b with
  | [], [] => true
  | x :: a', y :: b' => Ascii.eqb x y && str_eqb a' b'
  | _, _ => false
  end.

(** Built-in exceptions, each with the text [str(e)] gives, and the
    repository's [GlacierNotFoundError], raised with a message. *)
Inductive exn : Type :=
| IndexError (msg : str)
| KeyError (msg : str)
| ValueError (msg : str)
| FileNotFoundError (msg : str)
| GlacierNotFoundError (message : str).

Definition exn_str (e : exn) : str :=
  match e with
  | IndexError m | KeyError m | ValueError m
  | FileNotFoundError m | GlacierNotFoundError m => m
  end.

Definition result (A : Type) : Type := (exn + A)%type.

Definition ok {A} (a : A) : result A := inr a.
Definition throw {A} (e : exn) : result A := inl e.

Definition rbind {A B} (m : result A) (k : A -> result B) : result B :=
  match m with
  | inl e => inl e
  | inr a => k a
  end.

(** [str.isspace] on one character, for code points below 256. *)
Definition is_space (c : ascii) : bool :=
  let n := N_of_ascii c in
  ((9 <=? n) && (n <=? 13) || (28 <=? n) && (n <=? 32)
   || (n =? 133) || (n =? 160))%N.

Fixpoint lstrip (s : str) : str :=
  match s with
  | [] => []
  | c :: r => if is_space c then lstrip r else s
  end.

Definition rstrip (s : str) : str := rev (lstrip (rev s)).

(** [s.strip()] *)
Definition strip (s : str) : str := rstrip (lstrip s).

(** [s.split(sep)] for a one-character separator. *)
Fixpoint split (sep : ascii) (s : str) : list str :=
  match s with
  | [] => [[]]
  | c :: r =>
      if Ascii.eqb c sep then [] :: split sep r
      else match split sep r with
           | [] => [[c]]
           | p :: ps => (c :: p) :: ps
           end
  end.

(** [l[i]], with Python's negative indices. *)
Definition getitem {A} (l : list A) (i : Z) : result A :=
  let n := Z.of_nat (List.length l) in
  let j := if i <? 0 then n + i else i in
  if (0 <=? j) && (j <? n) then
    match nth_error l (Z.to_nat j) with
    | Some a => ok a
    | None => throw (IndexError (lit "list index out of range"))
    end
  else throw (IndexError (lit "list index out of range")).

(** Slices [s[lo:]], [s[lo:hi]] and [s[:hi]] with bounds that are
    non-negative literals. *)
Definition slice_from (lo : nat) (s : str) : str := skipn lo s.
Definition slice (lo hi : nat) (s : str) : str := firstn (hi - lo) (skipn lo s).
Definition slice_to (hi : nat) (s : str) : str := firstn hi s.

Fixpoint starts_with (p s : str) : bool :=
  match p, s with
  | [], _ => true
  | x :: p', y :: s' => Ascii.eqb x y && starts_with p' s'
  | _ :: _, [] => false
  end.

(** [s.replace(old, new)] for a non-empty [old]: occurrences are found from
    the left and do not overlap. [skip] counts the characters of a matched
    occurrence still to be passed over. *)
Fixpoint replace_go (old new : str) (skip : nat) (s : str) : str :=
  match s with
  | [] => []
  | c :: r =>
      match skip with
      | S k => replace_go old new k r
      | O =>
          if starts_with old s
          then new ++ replace_go old new (Nat.pred (List.length old)) r
          else c :: replace_go old new O r
      end
  end.

Definition replace (old new : str) (s : str) : str := replace_go old new O s.

Definition is_digit (c : ascii) : bool :=
  let n := N_of_ascii c in ((48 <=? n) && (n <=? 57))%N.

Definition digit_value (c : ascii) : Z := Z.of_N (N_of_ascii c) - 48.

(** Decimal digits with single underscores between digits, as [int]
    accepts them; [after_digit] tells whether the previous character was a
    digit. *)
Fixpoint digits_go (acc : Z) (after_digit : bool) (s : str) : option Z :=
  match s with
  | [] => if after_digit then Some acc else None
  | c :: r =>
      if is_digit c then digits_go (10 * acc + digit_value c) true r
      else if Ascii.eqb c "_"
      then (if after_digit then digits_go acc false r else None)
      else None
  end.

(** [int(s)] in base 10: surrounding whitespace is dropped, one sign is
    allowed. The interpreter's bound on the number of digits of the text is
    not part of the model. *)
Definition py_int (s : str) : result Z :=
  let t := strip s in
  let bad := throw (ValueError (lit "invalid literal for int() with base 10")) in
  match t with
  | "+"%char :: body =>
      match digits_go 0 false body with Some n => ok n | None => bad end
  | "-"%char :: body =>
      match digits_go 0 false body with Some n => ok (- n) | None => bad end
  | _ =>
      match digits_go 0 false t with Some n => ok n | None => bad end
  end.

(** [str(n)] for an integer. *)
Definition str_of_Z (z : Z) : str :=
  list_ascii_of_string (NilZero.string_of_int (Z.to_int z)).

Fixpoint index_go (acc : nat) (s : str) : nat :=
  match s with
  | [] => acc
  | c :: r => index_go (10 * acc + Z.to_nat (digit_value c))%nat r
  end.

(** [template.format] on positional arguments, for the templates of this
    module: literal text and numbered fields [{N}]; the arguments are given
    already converted by [str]. [field] holds the digits of the field being
    read. *)
Fixpoint format_go (args : list str) (field : option str) (t : str)
  : result str :=
  match t with
  | [] =>
      match field with
      | None => ok []
      | Some _ => throw (ValueError (lit "expected '}' before end of string"))
      end
  | c :: r =>
      match field with
      | None =>
          if Ascii.eqb c "{" then format_go args (Some []) r
          else if Ascii.eqb c "}"
          then throw (ValueError (lit "Single '}' encountered in format string"))
          else rbind (format_go args None r) (fun out => ok (c :: out))
      | Some ds =>
          if Ascii.eqb c "}" then
            match ds, nth_error args (index_go O ds) with
            | [], _ => throw (ValueError (lit "unsupported format field"))
            | _, Some a => rbind (format_go args None r) (fun out => ok (a ++ out))
            | _, None => throw (IndexError (lit "Replacement index out of range"))
            end
          else if is_digit c then format_go args (Some (ds ++ [c])) r
          else throw (ValueError (lit "unsupported format field"))
      end
  end.

Definition format (template : str) (args : list str) : result str :=
  format_go args None template.

(** A [dict] with integer keys, in insertion order. *)
Definition dict := list (Z * str).

Fixpoint dict_get (k : Z) (d : dict) : option str :=
  match d with
  | [] => None
  | (k', v) :: r => if k =? k' then Some v else dict_get k r
  end.

(** [d[k] = v]: an existing key keeps its place, a new key goes last. *)
Fixpoint dict_set (k : Z) (v : str) (d : dict) : dict :=
  match d with
  | [] => [(k, v)]
  | (k', v') :: r => if k =? k' then (k, v) :: r else (k', v') :: dict_set k v r
  end.

Definition dict_keys (d : dict) : list Z := map fst d.

End Py.

Import Py.

(** ** [datetime.date] *)

Module Datetime.

Record date : Type := mkdate { year : Z; month : Z; day : Z }.

Definition is_leap (y : Z) : bool :=
  (y mod 4 =? 0) && (negb (y mod 100 =? 0) || (y mod 400 =? 0)).

Definition days_in_month (y m : Z) : Z :=
  if m =? 2 then (if is_leap y then 29 else 28)
  else if (m =? 4) || (m =? 6) || (m =? 9) || (m =? 11) then 30
  else 31.

Definition valid_date (y m d : Z) : bool :=
  (1 <=? y) && (y <=? 9999) && (1 <=? m) && (m <=? 12)
  && (1 <=? d) && (d <=? days_in_month y m).

(** [datetime.date(year, month, day)] *)
Definition date_new (y m d : Z) : result date :=
  if negb ((1 <=? y) && (y <=? 9999))
  then throw (ValueError (lit "year is out of range"))
  else if negb ((1 <=? m) && (m <=? 12))
  then throw (ValueError (lit "month must be in 1..12"))
  else if negb ((1 <=? d) && (d <=? days_in_month y m))
  then throw (ValueError (lit "day is out of range for month"))
  else ok (mkdate y m d).

End Datetime.

Import Datetime.

(** ** Collaborators of the reader *)

(** Modelled from the spec: [DataObjects.Glacier] is not among the sources.
    A glacier entity carries a numeric VAW identifier [pkVaw]; the rest of
    the entity is kept as its name. *)
Record Glacier : Type := mkGlacier { pkVaw : Z; glacierName : str }.

(** Modelled from the spec: [DateQualityTypeEnum] is not among the sources.
    The two members the reader uses. *)
Inductive DateQualityTypeEnum : Type := Precisely | Estimated.

(** The second component of what a normaliser returns: [_reformateDate]
    returns the integer code, [_reformateDateYyyyMmDd] the enumeration
    member. *)
Inductive quality : Type :=
| QualityCode (code : Z)
| QualityMember (member : DateQualityTypeEnum).

(** The tag a returned quality stands for; the docstrings of both
    normalisers give the codes: 1 = known, 11 = estimated. *)
Definition quality_tag (q : quality) : option DateQualityTypeEnum :=
  match q with
  | QualityMember m => Some m
  | QualityCode c =>
      if c =? 1 then Some Precisely
      else if c =? 11 then Some Estimated
      else None
  end.

(** An open text file: what [str] of the file object gives, and the lines
    its iteration yields (each with its line end). *)
Record TextIO : Type := mkTextIO { io_str : str; io_lines : list str }.

(** What the reader's methods read and change outside the instance: the
    files, the dictionary [VawFileReader._headerLineContent], which is an
    attribute of the class and so one object for all readers, and the lines
    printed. *)
Record World : Type := mkWorld {
  files : str -> option TextIO;
  _headerLineContent : dict;
  stdout : list str
}.

Definition M (A : Type) : Type := World -> result A * World.

Definition ret {A} (a : A) : M A := fun w => (inr a, w).

Definition raise {A} (e : exn) : M A := fun w => (inl e, w).

Definition bind {A B} (m : M A) (k : A -> M B) : M B :=
  fun w =>
    match m w with
    | (inl e, w') => (inl e, w')
    | (inr a, w') => k a w'
    end.

Definition lift {A} (r : result A) : M A := fun w => (r, w).

(** [try: body except Exception as e: handler]; what [body] changed before
    it raised stays changed. *)
Definition try_except {A} (body : M A) (handler : exn -> M A) : M A :=
  fun w =>
    match body w with
    | (inl e, w') => handler e w'
    | (inr a, w') => (inr a, w')
    end.

Declare Scope py_scope.
Delimit Scope py_scope with py.

Notation "x <- m ;; k" := (bind m (fun x => k))
  (at level 61, m at next level, right associativity) : py_scope.
Notation "m ;; k" := (bind m (fun _ => k))
  (at level 61, right associativity) : py_scope.
Notation "'let?' x := m 'in' k" := (rbind m (fun x => k))
  (at level 61, x name, m at next level, right associativity) : py_scope.

Local Open Scope py_scope.

Definition print (line : str) : M unit :=
  fun w => (inr tt, mkWorld (files w) (_headerLineContent w) (stdout w ++ [line])).

(** [open(name, "r")] *)
Definition open (name : str) : M TextIO :=
  fun w =>
    match files w name with
    | Some f => (inr f, w)
    | None => (inl (FileNotFoundError (lit "No such file or directory")), w)
    end.

(** [self._headerLineContent[key]] *)
Definition header_get (key : Z) : M str :=
  fun w =>
    match dict_get key (_headerLineContent w) with
    | Some v => (inr v, w)
    | None => (inl (KeyError (str_of_Z key)), w)
    end.

(** [self._headerLineContent[key] = value] *)
Definition header_set (key : Z) (value : str) : M unit :=
  fun w =>
    (inr tt, mkWorld (files w) (dict_set key value (_headerLineContent w)) (stdout w)).

Definition header_keys : M (list Z) :=
  fun w => (inr (dict_keys (_headerLineContent w)), w).

(** ** The reader *)

(** The attributes a reader is seen to have. [_numberHeaderLines] and
    [_numberDataLines] are attributes of the class, read through the
    instance; a file family sets its own header-line count, the base class
    has -1 for both. *)
Record VawFileReader : Type := mkReader {
  _numberHeaderLines : Z;
  _numberDataLines : Z;
  _fullFileName : str;
  _dataSource : option str;
  _glacier : option Glacier
}.

Definition _HEADER_POSITION_SHORTNAME : Z := 1.
Definition _HEADER_POSITION_VAWIDENTIFIER : Z := 2.

(** ["# (c) "] with the copyright sign, code point 169. *)
Definition _DATA_SOURCE_PREFIX : str :=
  ["#"%char; " "%char; ascii_of_nat 169; " "%char].

(** The header-line count of the base class. *)
Definition base_numberHeaderLines : Z := -1.

Definition set_dataSource (self : VawFileReader) (v : str) : VawFileReader :=
  mkReader (_numberHeaderLines self) (_numberDataLines self)
           (_fullFileName self) (Some v) (_glacier self).

Definition set_glacier (self : VawFileReader) (g : Glacier) : VawFileReader :=
  mkReader (_numberHeaderLines self) (_numberDataLines self)
           (_fullFileName self) (_dataSource self) (Some g).

(** Modelled from the spec: the constructor of the base class
    [AsciiFileDateReader] is not among the sources; it records the file
    name. The new object sees the class attributes: the header-line count
    of its class, -1 data lines, no data source. *)
Definition AsciiFileDateReader_init (numberHeaderLines : Z) (fullFileName : str)
  : M VawFileReader :=
  ret (mkReader numberHeaderLines (-1) fullFileName None None).

(** The property [numberDataLines]. *)
Definition numberDataLines (self : VawFileReader) : Z := _numberDataLines self.

(** The loop of [_getMetadata] over [self._headerLineContent.items()]. The
    loop assigns to keys the dictionary already has, so the keys and their
    order are those at the start of the loop. *)
Fixpoint _getMetadata_items (lineParts : list str) (keys : list Z) : M unit :=
  match keys with
  | [] => ret tt
  | key :: rest =>
      part <- lift (getitem lineParts key) ;;
      header_set key (strip part) ;;
      _getMetadata_items lineParts rest
  end.

Definition _getMetadata (metadataLine : str) : M unit :=
  let lineParts := split ";" metadataLine in
  keys <- header_keys ;;
  _getMetadata_items lineParts keys.

(** The body of the [try] in [parseHeader] for one line. The instance is
    assigned to only after everything that can raise, so a line that raises
    leaves the instance as it was. *)
Definition parseHeader_line (lineCounter : Z) (line : str) (self : VawFileReader)
  : M VawFileReader :=
  (if lineCounter =? 1 then _getMetadata line else ret tt) ;;
  if _numberHeaderLines self =? lineCounter
  then ret (set_dataSource self (replace _DATA_SOURCE_PREFIX [] (strip line)))
  else ret self.

(** The [except] clause of [parseHeader]. *)
Definition parseHeader_except (vaw : TextIO) (lineCounter : Z)
    (self : VawFileReader) (e : exn) : M VawFileReader :=
  errorMessage <- lift (format (lit "{0} @ {1}: {2}")
                          [io_str vaw; str_of_Z lineCounter; exn_str e]) ;;
  print errorMessage ;;
  ret self.

(** The [for line in vaw] loop; [lineCounter] is the count before the
    line. *)
Fixpoint parseHeader_lines (vaw : TextIO) (lineCounter : Z) (lines : list str)
    (self : VawFileReader) : M VawFileReader :=
  match lines with
  | [] => ret self
  | line :: rest =>
      let lineCounter := lineCounter + 1 in
      self' <- try_except (parseHeader_line lineCounter line self)
                          (parseHeader_except vaw lineCounter self) ;;
      parseHeader_lines vaw lineCounter rest self'
  end.

Definition parseHeader (self : VawFileReader) : M VawFileReader :=
  vaw <- open (_fullFileName self) ;;
  parseHeader_lines vaw 0 (io_lines vaw) self.

(** [_reformateDate]: the dotted convention. *)
Definition _reformateDate (dateVaw : str) : result (date * quality) :=
  let dateVawParts := split "." dateVaw in
  let? p0 := getitem dateVawParts 0 in
  let? quality :=
    (if str_eqb p0 (lit "00") then ok (QualityCode 11)
     else let? p1 := getitem dateVawParts 1 in
          ok (if str_eqb p1 (lit "00") then QualityCode 11 else QualityCode 1)) in
  let? p0 := getitem dateVawParts 0 in
  let? day := (if str_eqb p0 (lit "00") then ok 1 else py_int p0) in
  let? p1 := getitem dateVawParts 1 in
  let? month := (if str_eqb p1 (lit "00") then ok 9 else py_int p1) in
  let? p2 := getitem dateVawParts 2 in
  let? year := py_int p2 in
  let? d := date_new year month day in
  ok (d, quality).

(** [_reformateDateYyyyMmDd]: the compact convention. *)
Definition _reformateDateYyyyMmDd (yyyymmdd : str) : result (date * quality) :=
  let dateParts :=
    [slice_from 6 yyyymmdd; slice 4 6 yyyymmdd; slice_to 4 yyyymmdd] in
  let? p0 := getitem dateParts 0 in
  let? quality :=
    (if str_eqb p0 (lit "00") then ok (QualityMember Estimated)
     else let? p1 := getitem dateParts 1 in
          ok (if str_eqb p1 (lit "00")
              then QualityMember Estimated else QualityMember Precisely)) in
  let? p0 := getitem dateParts 0 in
  let? day := (if str_eqb p0 (lit "00") then ok 1 else py_int p0) in
  let? p1 := getitem dateParts 1 in
  let? month := (if str_eqb p1 (lit "00") then ok 9 else py_int p1) in
  let? p2 := getitem dateParts 2 in
  let? year := py_int p2 in
  let? d := date_new year month day in
  ok (d, quality).

(** [_reformateDateMmDd]: the two tokens are put into ["{0}{1}"]. *)
Definition _reformateDateMmDd (mmdd yyyy : str) : result (date * quality) :=
  let? yyyymmdd := format (lit "{0}{1}") [yyyy; mmdd] in
  _reformateDateYyyyMmDd yyyymmdd.

(** The scan of [__init__] over [glaciers.values()]: every value is
    compared, a later match replaces an earlier one. *)
Definition find_glacier (givenVawId : Z) (values : list Glacier) : option Glacier :=
  fold_left
    (fun glacierFound glacier =>
       if pkVaw glacier =? givenVawId then Some glacier else glacierFound)
    values None.

(** [__init__] up to and including the [print]: the two labels are written
    into the class dictionary, the base constructor runs, the header is
    parsed. *)
Definition init_header (numberHeaderLines : Z) (fullFileName : str)
  : M VawFileReader :=
  header_set _HEADER_POSITION_SHORTNAME (lit "Glacier short name") ;;
  header_set _HEADER_POSITION_VAWIDENTIFIER (lit "VAW identifier") ;;
  self <- AsciiFileDateReader_init numberHeaderLines fullFileName ;;
  self <- parseHeader self ;;
  print (lit "Given data file -> " ++ fullFileName) ;;
  ret self.

(** The rest of [__init__]: the identifier is parsed and looked for in the
    registry, a dictionary whose values are the glaciers. *)
Definition init_resolve (glaciers : list (str * Glacier)) (self : VawFileReader)
  : M VawFileReader :=
  idText <- header_get _HEADER_POSITION_VAWIDENTIFIER ;;
  givenVawId <- lift (py_int idText) ;;
  match find_glacier givenVawId (map snd glaciers) with
  | Some glacierFound => ret (set_glacier self glacierFound)
  | None =>
      a0 <- header_get _HEADER_POSITION_VAWIDENTIFIER ;;
      a1 <- header_get _HEADER_POSITION_SHORTNAME ;;
      message <- lift (format
        (lit "No corresponding glacier found. Header information given VAW-PK {0} and short name {1}")
        [a0; a1]) ;;
      raise (GlacierNotFoundError message)
  end.

(** [VawFileReader(fullFileName, glaciers)] for a class whose header-line
    count is [numberHeaderLines]. *)
Definition __init__ (numberHeaderLines : Z) (fullFileName : str)
    (glaciers : list (str * Glacier)) : M VawFileReader :=
  self <- init_header numberHeaderLines fullFileName ;;
  init_resolve glaciers self.

(** ** Definitions used to state the properties *)

(** Whether the character [c] is in [s]. *)
Definition has_char (c : ascii) (s : str) : bool := existsb (Ascii.eqb c) s.

(** The normalisation rule as the specification words it, on the three
    tokens: the sentinel "00" stands for the default, any other token for
    its integer value; the tag is Estimated when the day or the month token
    is the sentinel. *)
Definition sentinel_value (default : Z) (tok : str) : result Z :=
  if str_eqb tok (lit "00") then ok default else py_int tok.

Definition normalise_tokens (dayTok monthTok yearTok : str)
  : result (date * DateQualityTypeEnum) :=
  let tag := if str_eqb dayTok (lit "00") || str_eqb monthTok (lit "00")
             then Estimated else Precisely in
  let? d := sentinel_value 1 dayTok in
  let? m := sentinel_value 9 monthTok in
  let? y := py_int yearTok in
  let? dt := date_new y m d in
  ok (dt, tag).

(** The integer code [_reformateDate] returns for a tag. *)
Definition quality_code (t : DateQualityTypeEnum) : quality :=
  match t with
  | Precisely => QualityCode 1
  | Estimated => QualityCode 11
  end.

Definition with_quality (f : DateQualityTypeEnum -> quality)
    (r : result (date * DateQualityTypeEnum)) : result (date * quality) :=
  match r with
  | inl e => inl e
  | inr (dt, t) => inr (dt, f t)
  end.

(** A result with the tag its quality stands for. *)
Definition tagged (r : result (date * quality))
  : result (date * option DateQualityTypeEnum) :=
  match r with
  | inl e => inl e
  | inr (dt, q) => inr (dt, quality_tag q)
  end.

(** Whether [p] occurs somewhere in [s]. *)
Fixpoint occurs (p s : str) : bool :=
  starts_with p s
  || match s with
     | [] => false
     | _ :: r => occurs p r
     end.

(** Stripping a prefix as the specification words it: [p] is taken off the
    front of [s] if [s] starts with it, and [s] is left as it is
    otherwise. *)
Definition strip_prefix (p s : str) : str :=
  if starts_with p s then skipn (List.length p) s else s.

(** The matching entry the specification binds the reader to: the last
    value of the registry whose [pkVaw] is the identifier. *)
Definition last_match (givenVawId : Z) (values : list Glacier) : option Glacier :=
  List.last (map Some (filter (fun g => pkVaw g =? givenVawId) values)) None.

(** A file system with one file, named ["f"]. *)
Definition one_file (lines : list str) : str -> option TextIO :=
  fun name =>
    if str_eqb name (lit "f")
    then Some (mkTextIO (lit "<f>") lines)
    else None.

(** The world before any reader was made: the class dictionary is empty,
    nothing was printed. *)
Definition fresh_world (lines : list str) : World :=
  mkWorld (one_file lines) [] [].

Definition nl : str := [ascii_of_nat 10].

(** [self'] is [self] but for its data source. *)
Definition same_but_dataSource (self self' : VawFileReader) : Prop :=
  _numberHeaderLines self' = _numberHeaderLines self /\
  _numberDataLines self' = _numberDataLines self /\
  _fullFileName self' = _fullFileName self /\
  _glacier self' = _glacier self.

(** The data source stored for a header line. *)
Definition attribution (line : str) : str :=
  replace _DATA_SOURCE_PREFIX [] (strip line).

(** The line [parseHeader] prints for an exception in line [lineCounter]. *)
Definition error_line (vaw : TextIO) (lineCounter : Z) (e : exn) : str :=
  io_str vaw ++ lit " @ " ++ str_of_Z lineCounter ++ lit ": " ++ exn_str e.

Definition printed (w : World) (line : str) : World :=
  mkWorld (files w) (_headerLineContent w) (stdout w ++ [line]).

(** The world once [__init__] has written the two labels. *)
Definition labelled (w : World) : World :=
  mkWorld (files w)
    (dict_set _HEADER_POSITION_VAWIDENTIFIER (lit "VAW identifier")
       (dict_set _HEADER_POSITION_SHORTNAME (lit "Glacier short name")
          (_headerLineContent w)))
    (stdout w).

(** The message of the [GlacierNotFoundError]. *)
Definition not_found_message (idText name : str) : str :=
  lit "No corresponding glacier found. Header information given VAW-PK "
  ++ idText ++ lit " and short name " ++ name.

(** * Properties *)

(** ** Strings *)

Lemma str_eqb_eq (a b : str) : str_eqb a b = true <-> a = b.
Proof.
  revert b; induction a as [|x a IH]; intros [|y b]; simpl; split;
    try congruence; try discriminate.
  - intros H. apply andb_true_iff in H as [Hx Hab].
    apply Ascii.eqb_eq in Hx. apply IH in Hab. congruence.
  - intros H. injection H as -> ->. rewrite Ascii.eqb_refl. simpl.
    apply IH. reflexivity.
Qed.

Lemma str_eqb_neq (a b : str) : str_eqb a b = false <-> a <> b.
Proof.
  rewrite <- str_eqb_eq. destruct (str_eqb a b); split; congruence.
Qed.

Lemma split_nosep (sep : ascii) (s : str) :
  has_char sep s = false -> split sep s = [s].
Proof.
  induction s as [|c s IH]; simpl; intros H; [reflexivity|].
  apply orb_false_iff in H as [Hc Hs].
  rewrite Ascii.eqb_sym, Hc, (IH Hs). reflexivity.
Qed.

Lemma split_app_sep (sep : ascii) (s rest : str) :
  has_char sep s = false ->
  split sep (s ++ sep :: rest) = s :: split sep rest.
Proof.
  induction s as [|c s IH]; simpl; intros H.
  - rewrite Ascii.eqb_refl. reflexivity.
  - apply orb_false_iff in H as [Hc Hs].
    rewrite Ascii.eqb_sym, Hc, (IH Hs). reflexivity.
Qed.

Lemma split_dotted (d m y : str) :
  has_char "." d = false -> has_char "." m = false -> has_char "." y = false ->
  split "." (d ++ "."%char :: m ++ "."%char :: y) = [d; m; y].
Proof.
  intros Hd Hm Hy.
  rewrite (split_app_sep _ _ _ Hd), (split_app_sep _ _ _ Hm), (split_nosep _ _ Hy).
  reflexivity.
Qed.

Lemma reformateDate_rule (d m y : str) :
  has_char "." d = false -> has_char "." m = false -> has_char "." y = false ->
  _reformateDate (d ++ "."%char :: m ++ "."%char :: y)
  = with_quality quality_code (normalise_tokens d m y).
Proof.
  intros Hd Hm Hy. unfold _reformateDate.
  rewrite (split_dotted d m y Hd Hm Hy).
  change (getitem [d; m; y] 0) with (ok d).
  change (getitem [d; m; y] 1) with (ok m).
  change (getitem [d; m; y] 2) with (ok y).
  unfold normalise_tokens, sentinel_value. cbn [rbind ok].
  destruct (str_eqb d (lit "00")), (str_eqb m (lit "00")); cbn [rbind ok orb];
    repeat match goal with
           | |- context [py_int ?t] => destruct (py_int t); cbn [rbind ok]
           | |- context [date_new ?a ?b ?c] => destruct (date_new a b c); cbn [rbind ok]
           end; reflexivity.
Qed.

Lemma reformateDateYyyyMmDd_rule (s : str) :
  _reformateDateYyyyMmDd s
  = with_quality QualityMember
      (normalise_tokens (slice_from 6 s) (slice 4 6 s) (slice_to 4 s)).
Proof.
  unfold _reformateDateYyyyMmDd.
  set (d := slice_from 6 s). set (m := slice 4 6 s). set (y := slice_to 4 s).
  change (getitem [d; m; y] 0) with (ok d).
  change (getitem [d; m; y] 1) with (ok m).
  change (getitem [d; m; y] 2) with (ok y).
  unfold normalise_tokens, sentinel_value. cbn [rbind ok].
  destruct (str_eqb d (lit "00")), (str_eqb m (lit "00")); cbn [rbind ok orb];
    repeat match goal with
           | |- context [py_int ?t] => destruct (py_int t); cbn [rbind ok]
           | |- context [date_new ?a ?b ?c] => destruct (date_new a b c); cbn [rbind ok]
           end; reflexivity.
Qed.

(** ** The normalisation rule *)

Lemma date_new_inr (y m d : Z) (dt : date) :
  date_new y m d = inr dt <-> valid_date y m d = true /\ dt = mkdate y m d.
Proof.
  unfold date_new, valid_date, throw, ok.
  destruct (1 <=? y), (y <=? 9999), (1 <=? m), (m <=? 12), (1 <=? d),
    (d <=? days_in_month y m); simpl; split;
    try discriminate; try (intros [H _]; discriminate H).
  - intros H. injection H as <-. auto.
  - intros [_ ->]. reflexivity.
Qed.

Lemma sentinel_value_inr (default : Z) (tok : str) (v : Z) :
  sentinel_value default tok = inr v <->
  (tok = lit "00" /\ v = default) \/ (tok <> lit "00" /\ py_int tok = inr v).
Proof.
  unfold sentinel_value, ok.
  destruct (str_eqb tok (lit "00")) eqn:E.
  - apply str_eqb_eq in E. split.
    + intros H. injection H as <-. left. auto.
    + intros [[_ ->]|[N _]]; [reflexivity | contradiction].
  - apply str_eqb_neq in E. split.
    + intros H. right. auto.
    + intros [[H _]|[_ H]]; [contradiction | exact H].
Qed.

Lemma normalise_tokens_inr (d m y : str) (dt : date) (t : DateQualityTypeEnum) :
  normalise_tokens d m y = inr (dt, t) <->
  sentinel_value 1 d = inr (day dt) /\
  sentinel_value 9 m = inr (month dt) /\
  py_int y = inr (year dt) /\
  valid_date (year dt) (month dt) (day dt) = true /\
  t = (if str_eqb d (lit "00") || str_eqb m (lit "00")
       then Estimated else Precisely).
Proof.
  unfold normalise_tokens.
  destruct (sentinel_value 1 d) as [e|dv]; cbn [rbind];
    [split; [discriminate | intros [H _]; discriminate H]|].
  destruct (sentinel_value 9 m) as [e|mv]; cbn [rbind];
    [split; [discriminate | intros (_ & H & _); discriminate H]|].
  destruct (py_int y) as [e|yv]; cbn [rbind];
    [split; [discriminate | intros (_ & _ & H & _); discriminate H]|].
  destruct (date_new yv mv dv) as [e|dt'] eqn:E; cbn [rbind].
  - split; [discriminate|].
    intros (Hd & Hm & Hy & Hv & _).
    injection Hd as ->. injection Hm as ->. injection Hy as ->.
    assert (H : date_new (year dt) (month dt) (day dt) = inr dt)
      by (apply date_new_inr; split; [exact Hv | destruct dt; reflexivity]).
    congruence.
  - apply date_new_inr in E as [Hv ->]. unfold ok. simpl. split.
    + intros H. injection H as <- <-. simpl. auto.
    + intros (Hd & Hm & Hy & _ & ->).
      injection Hd as ->. injection Hm as ->. injection Hy as ->.
      destruct dt; reflexivity.
Qed.

Lemma tag_cases (d m : str) :
  (d = lit "00" \/ m = lit "00" ->
   (if str_eqb d (lit "00") || str_eqb m (lit "00")
    then Estimated else Precisely) = Estimated) /\
  (d <> lit "00" /\ m <> lit "00" ->
   (if str_eqb d (lit "00") || str_eqb m (lit "00")
    then Estimated else Precisely) = Precisely).
Proof.
  split.
  - intros [H|H]; apply str_eqb_eq in H; rewrite H;
      [reflexivity | rewrite orb_true_r; reflexivity].
  - intros [Hd Hm]. apply str_eqb_neq in Hd, Hm. rewrite Hd, Hm. reflexivity.
Qed.

Lemma with_quality_inr (f : DateQualityTypeEnum -> quality)
    (s : result (date * DateQualityTypeEnum)) (dt : date) (q : quality) :
  with_quality f s = inr (dt, q) <-> exists t, s = inr (dt, t) /\ q = f t.
Proof.
  destruct s as [e|[dt' t]]; simpl; split.
  - discriminate.
  - intros (t & H & _). discriminate H.
  - intros H. injection H as -> <-. exists t. auto.
  - intros (t' & H & ->). injection H as -> ->. reflexivity.
Qed.

(** What the normalisation rule gives, read off a returned result. *)
Lemma rule_returns (f : DateQualityTypeEnum -> quality) (d m y : str)
    (dt : date) (q : quality) :
  with_quality f (normalise_tokens d m y) = inr (dt, q) ->
  (d = lit "00" -> day dt = 1) /\
  (d <> lit "00" -> py_int d = inr (day dt)) /\
  (m = lit "00" -> month dt = 9) /\
  (m <> lit "00" -> py_int m = inr (month dt)) /\
  py_int y = inr (year dt) /\
  (d = lit "00" \/ m = lit "00" -> q = f Estimated) /\
  (d <> lit "00" /\ m <> lit "00" -> q = f Precisely).
Proof.
  intros Hr.
  apply with_quality_inr in Hr as (t & Hs & Hq).
  apply normalise_tokens_inr in Hs as (Hd & Hm & Hy & _ & Ht).
  apply sentinel_value_inr in Hd, Hm.
  destruct (tag_cases d m) as [Te Tp].
  repeat split.
  - intros E. destruct Hd as [[_ ?]|[N _]]; [assumption | contradiction].
  - intros N. destruct Hd as [[E _]|[_ ?]]; [contradiction | assumption].
  - intros E. destruct Hm as [[_ ?]|[N _]]; [assumption | contradiction].
  - intros N. destruct Hm as [[E _]|[_ ?]]; [contradiction | assumption].
  - exact Hy.
  - intros E. rewrite Hq, Ht, (Te E). reflexivity.
  - intros N. rewrite Hq, Ht, (Tp N). reflexivity.
Qed.

(** The rule returns a date whenever the token values form one. *)
Lemma rule_total (f : DateQualityTypeEnum -> quality) (d m y : str)
    (dv mv yv : Z) :
  (d = lit "00" /\ dv = 1 \/ d <> lit "00" /\ py_int d = inr dv) ->
  (m = lit "00" /\ mv = 9 \/ m <> lit "00" /\ py_int m = inr mv) ->
  py_int y = inr yv ->
  valid_date yv mv dv = true ->
  exists q, with_quality f (normalise_tokens d m y) = inr (mkdate yv mv dv, q).
Proof.
  intros Hd Hm Hy Hv.
  eexists. apply with_quality_inr. eexists. split; [|reflexivity].
  apply normalise_tokens_inr. simpl.
  repeat split; try assumption; apply sentinel_value_inr; assumption.
Qed.

(** C1. For a dotted token [d.m.y]: a returned date has day 1 for the day
    token "00" and the integer value of the day token otherwise, month 9
    for the month token "00" and the integer value of the month token
    otherwise, and the integer value of the year token as its year; the
    returned quality is the code of Estimated (11) when the day or the month
    token is "00" and the code of Precise (1) otherwise; a result is
    returned whenever these values form a calendar date. "00.00.2018" gives
    1 September 2018, Estimated, and "15.06.2020" gives 15 June 2020,
    Precise. *)
Theorem reformateDate_dotted_token (d m y : str) :
  has_char "." d = false -> has_char "." m = false -> has_char "." y = false ->
  (forall dt q,
     _reformateDate (d ++ "."%char :: m ++ "."%char :: y) = inr (dt, q) ->
     (d = lit "00" -> day dt = 1) /\
     (d <> lit "00" -> py_int d = inr (day dt)) /\
     (m = lit "00" -> month dt = 9) /\
     (m <> lit "00" -> py_int m = inr (month dt)) /\
     py_int y = inr (year dt) /\
     (d = lit "00" \/ m = lit "00" ->
      q = QualityCode 11 /\ quality_tag q = Some Estimated) /\
     (d <> lit "00" /\ m <> lit "00" ->
      q = QualityCode 1 /\ quality_tag q = Some Precisely)) /\
  (forall dv mv yv,
     (d = lit "00" /\ dv = 1 \/ d <> lit "00" /\ py_int d = inr dv) ->
     (m = lit "00" /\ mv = 9 \/ m <> lit "00" /\ py_int m = inr mv) ->
     py_int y = inr yv ->
     valid_date yv mv dv = true ->
     exists q, _reformateDate (d ++ "."%char :: m ++ "."%char :: y)
               = inr (mkdate yv mv dv, q)) /\
  tagged (_reformateDate (lit "00.00.2018"))
  = inr (mkdate 2018 9 1, Some Estimated) /\
  tagged (_reformateDate (lit "15.06.2020"))
  = inr (mkdate 2020 6 15, Some Precisely).
Proof.
  intros Hd Hm Hy.
  rewrite (reformateDate_rule d m y Hd Hm Hy).
  split.
  - intros dt q Hr.
    destruct (rule_returns _ _ _ _ _ _ Hr) as (A & B & C & D & E & F & G).
    repeat split; try assumption.
    + exact (F H).
    + rewrite (F H). reflexivity.
    + exact (G H).
    + rewrite (G H). reflexivity.
  - split; [intros dv mv yv; apply rule_total|].
    split; vm_compute; reflexivity.
Qed.

Lemma reformateDate_dotted_token_witness :
  exists q, _reformateDate (lit "29.02.2020") = inr (mkdate 2020 2 29, q).
Proof.
  apply (reformateDate_dotted_token (lit "29") (lit "02") (lit "2020"));
    try reflexivity.
  - right. split; [discriminate | reflexivity].
  - right. split; [discriminate | reflexivity].
Defined.

Lemma compact_slices (s : str) :
  List.length s = 8%nat ->
  slice_to 4 s = slice 0 4 s /\ slice_from 6 s = slice 6 8 s.
Proof.
  intros H.
  do 8 (destruct s as [|? s]; [discriminate H|]).
  destruct s; [|discriminate H].
  split; reflexivity.
Qed.

Lemma compact_tokens (y m d : str) :
  List.length y = 4%nat -> List.length m = 2%nat ->
  slice_to 4 (y ++ m ++ d) = y /\
  slice 4 6 (y ++ m ++ d) = m /\
  slice_from 6 (y ++ m ++ d) = d.
Proof.
  intros Hy Hm.
  do 4 (destruct y as [|? y]; [discriminate Hy|]).
  destruct y; [|discriminate Hy].
  do 2 (destruct m as [|? m]; [discriminate Hm|]).
  destruct m; [|discriminate Hm].
  unfold slice_to, slice, slice_from. simpl.
  repeat split.
Qed.

(** C4. A compact token of 8 characters is cut into day = characters 6 to
    8, month = characters 4 to 6, year = characters 0 to 4, and the sentinel
    rule applies to these: a returned date has day 1 for the day slice "00"
    and its integer value otherwise, month 9 for the month slice "00" and
    its integer value otherwise, and the integer value of the year slice;
    the quality is Estimated when the day or the month slice is "00" and
    Precisely otherwise; a result is returned whenever these values form a
    calendar date. "20180000" gives 1 September 2018, Estimated, and
    "20200615" gives 15 June 2020, Precise. *)
Theorem reformateDateYyyyMmDd_compact_token (s : str) :
  List.length s = 8%nat ->
  (forall dt q,
     _reformateDateYyyyMmDd s = inr (dt, q) ->
     (slice 6 8 s = lit "00" -> day dt = 1) /\
     (slice 6 8 s <> lit "00" -> py_int (slice 6 8 s) = inr (day dt)) /\
     (slice 4 6 s = lit "00" -> month dt = 9) /\
     (slice 4 6 s <> lit "00" -> py_int (slice 4 6 s) = inr (month dt)) /\
     py_int (slice 0 4 s) = inr (year dt) /\
     (slice 6 8 s = lit "00" \/ slice 4 6 s = lit "00" ->
      q = QualityMember Estimated) /\
     (slice 6 8 s <> lit "00" /\ slice 4 6 s <> lit "00" ->
      q = QualityMember Precisely)) /\
  (forall dv mv yv,
     (slice 6 8 s = lit "00" /\ dv = 1 \/
      slice 6 8 s <> lit "00" /\ py_int (slice 6 8 s) = inr dv) ->
     (slice 4 6 s = lit "00" /\ mv = 9 \/
      slice 4 6 s <> lit "00" /\ py_int (slice 4 6 s) = inr mv) ->
     py_int (slice 0 4 s) = inr yv ->
     valid_date yv mv dv = true ->
     exists q, _reformateDateYyyyMmDd s = inr (mkdate yv mv dv, q)) /\
  _reformateDateYyyyMmDd (lit "20180000")
  = inr (mkdate 2018 9 1, QualityMember Estimated) /\
  _reformateDateYyyyMmDd (lit "20200615")
  = inr (mkdate 2020 6 15, QualityMember Precisely).
Proof.
  intros Hs.
  destruct (compact_slices s Hs) as (Ey & Ed).
  rewrite (reformateDateYyyyMmDd_rule s), Ey, Ed.
  split; [intros dt q; apply rule_returns|].
  split; [intros dv mv yv; apply rule_total|].
  split; vm_compute; reflexivity.
Qed.

Lemma reformateDateYyyyMmDd_compact_token_witness :
  exists q, _reformateDateYyyyMmDd (lit "20181100") = inr (mkdate 2018 11 1, q).
Proof.
  apply (reformateDateYyyyMmDd_compact_token (lit "20181100"));
    try reflexivity.
  - left. split; reflexivity.
  - right. split; [discriminate | reflexivity].
Defined.

(** C5. For a day token and a month token of two characters and a year
    token of four, none with a dot, the dotted normaliser on [dd.mm.yyyy]
    and the compact normaliser on [yyyymmdd] give the same output: both
    raise the same exception, or both return the same calendar date with the
    same quality tag. The two results are one result of the rule, the
    dotted normaliser giving the tag as its integer code and the compact
    one as the enumeration member. *)
Theorem dotted_and_compact_agree (dd mm yyyy : str) :
  List.length dd = 2%nat -> List.length mm = 2%nat ->
  List.length yyyy = 4%nat ->
  has_char "." dd = false -> has_char "." mm = false ->
  has_char "." yyyy = false ->
  tagged (_reformateDate (dd ++ "."%char :: mm ++ "."%char :: yyyy))
  = tagged (_reformateDateYyyyMmDd (yyyy ++ mm ++ dd)) /\
  exists r,
    _reformateDate (dd ++ "."%char :: mm ++ "."%char :: yyyy)
    = with_quality quality_code r /\
    _reformateDateYyyyMmDd (yyyy ++ mm ++ dd) = with_quality QualityMember r.
Proof.
  intros Ld Lm Ly Hd Hm Hy.
  rewrite (reformateDate_rule dd mm yyyy Hd Hm Hy).
  rewrite reformateDateYyyyMmDd_rule.
  destruct (compact_tokens yyyy mm dd Ly Lm) as (-> & -> & ->).
  split; [|exists (normalise_tokens dd mm yyyy); split; reflexivity].
  destruct (normalise_tokens dd mm yyyy) as [e|[dt [|]]]; reflexivity.
Qed.

Lemma dotted_and_compact_agree_witness :
  tagged (_reformateDate (lit "00.07.1999"))
  = tagged (_reformateDateYyyyMmDd (lit "19990700")).
Proof.
  apply (dotted_and_compact_agree (lit "00") (lit "07") (lit "1999"));
    reflexivity.
Defined.

Lemma format_two_fields (a b : str) :
  format (lit "{0}{1}") [a; b] = ok (a ++ b).
Proof.
  unfold format. simpl. rewrite app_nil_r. reflexivity.
Qed.

(** C8. [_reformateDateMmDd(mmdd, yyyy)] returns what the compact
    normaliser returns on the year token followed by the month-day
    token. *)
Theorem reformateDateMmDd_concatenates (mmdd yyyy : str) :
  _reformateDateMmDd mmdd yyyy = _reformateDateYyyyMmDd (yyyy ++ mmdd).
Proof.
  unfold _reformateDateMmDd. rewrite format_two_fields. reflexivity.
Qed.

(** ** The header dictionary *)

Lemma dict_get_set_same (k : Z) (v : str) (d : dict) :
  dict_get k (dict_set k v d) = Some v.
Proof.
  induction d as [|[k' v'] d IH]; simpl.
  - rewrite Z.eqb_refl. reflexivity.
  - destruct (k =? k') eqn:E; simpl; rewrite ?Z.eqb_refl, ?E; auto.
Qed.

Lemma dict_get_set_other (k k' : Z) (v : str) (d : dict) :
  k' <> k -> dict_get k' (dict_set k v d) = dict_get k' d.
Proof.
  intros N. induction d as [|[k0 v0] d IH]; simpl.
  - apply Z.eqb_neq in N. rewrite N. reflexivity.
  - destruct (k =? k0) eqn:E; simpl.
    + apply Z.eqb_eq in E. subst k0.
      apply Z.eqb_neq in N. rewrite N. reflexivity.
    + rewrite IH. reflexivity.
Qed.

Lemma dict_set_keys (k : Z) (v : str) (d : dict) :
  In k (dict_keys d) -> dict_keys (dict_set k v d) = dict_keys d.
Proof.
  induction d as [|[k' v'] d IH]; simpl; intros H; [contradiction|].
  destruct (k =? k') eqn:E; simpl.
  - apply Z.eqb_eq in E. subst. reflexivity.
  - f_equal. apply IH. destruct H as [H|H]; [|exact H].
    apply Z.eqb_neq in E. congruence.
Qed.

Lemma dict_set_has_key (k : Z) (v : str) (d : dict) :
  In k (dict_keys (dict_set k v d)).
Proof.
  induction d as [|[k' v'] d IH]; simpl; [auto|].
  destruct (k =? k'); simpl; auto.
Qed.

Lemma dict_set_keeps_key (k k' : Z) (v : str) (d : dict) :
  In k' (dict_keys d) -> In k' (dict_keys (dict_set k v d)).
Proof.
  induction d as [|[k0 v0] d IH]; simpl; [contradiction|].
  destruct (k =? k0) eqn:E; simpl; intros [H|H]; auto.
  apply Z.eqb_eq in E. subst. auto.
Qed.

Lemma dict_get_key (k : Z) (d : dict) :
  In k (dict_keys d) <-> exists v, dict_get k d = Some v.
Proof.
  induction d as [|[k' v'] d IH]; simpl.
  - split; [contradiction | intros [v H]; discriminate H].
  - destruct (k =? k') eqn:E.
    + apply Z.eqb_eq in E. subst. split; eauto.
    + apply Z.eqb_neq in E. rewrite <- IH. split; [|auto].
      intros [H|H]; [congruence | exact H].
Qed.

(** ** [_getMetadata] *)

Section GetMetadata.

Variable lineParts : list str.

Lemma getMetadata_items_frame (keys : list Z) :
  forall w r w',
  (forall k, In k keys -> In k (dict_keys (_headerLineContent w))) ->
  _getMetadata_items lineParts keys w = (r, w') ->
  files w' = files w /\ stdout w' = stdout w /\
  dict_keys (_headerLineContent w') = dict_keys (_headerLineContent w).
Proof.
  induction keys as [|key rest IH]; intros w r w' Hk H.
  - injection H as _ <-. auto.
  - simpl in H. unfold bind, lift in H.
    destruct (getitem lineParts key) as [e|part].
    + injection H as _ <-. auto.
    + unfold header_set in H at 1.
      assert (K : dict_keys (dict_set key (strip part) (_headerLineContent w))
                  = dict_keys (_headerLineContent w))
        by (apply dict_set_keys, Hk; left; reflexivity).
      apply IH in H; simpl in *.
      * rewrite K in H. exact H.
      * intros k Hin. rewrite K. apply Hk. right. exact Hin.
Qed.

(** The loop stops at the first key it cannot index: the keys before it
    hold their extracted values, every other key holds what it held. *)
Lemma getMetadata_items_fail (done : list Z) (k : Z) (todo : list Z) (e : exn) :
  forall w,
  (forall k', In k' done -> exists part, getitem lineParts k' = inr part) ->
  getitem lineParts k = inl e ->
  exists w',
    _getMetadata_items lineParts (done ++ k :: todo) w = (inl e, w') /\
    (forall k' part, In k' done -> getitem lineParts k' = inr part ->
       dict_get k' (_headerLineContent w') = Some (strip part)) /\
    (forall k', ~ In k' done ->
       dict_get k' (_headerLineContent w') = dict_get k' (_headerLineContent w)).
Proof.
  induction done as [|a done IH]; intros w Hok Hk.
  - exists w. simpl. unfold bind, lift. rewrite Hk.
    split; [reflexivity|]. split; [intros k' part []|auto].
  - destruct (Hok a (or_introl eq_refl)) as [pa Ha].
    set (w1 := mkWorld (files w)
                 (dict_set a (strip pa) (_headerLineContent w)) (stdout w)).
    destruct (IH w1) as (w' & Hrun & Hdone & Hrest);
      [intros k' Hin; apply Hok; right; exact Hin | exact Hk |].
    exists w'. split; [|split].
    + simpl. unfold bind at 1, lift. rewrite Ha.
      unfold bind at 1, header_set at 1. exact Hrun.
    + intros k' part Hin Hp.
      destruct (in_dec Z.eq_dec k' done) as [I|I]; [exact (Hdone k' part I Hp)|].
      destruct Hin as [<-|Hin]; [|contradiction].
      rewrite (Hrest a I). simpl.
      rewrite dict_get_set_same. congruence.
    + intros k' Hn. rewrite Hrest by (intros I; apply Hn; right; exact I).
      simpl. apply dict_get_set_other. intros ->. apply Hn. left. reflexivity.
Qed.

(** When every key can be indexed the loop ends normally, every key
    holding its extracted value. *)
Lemma getMetadata_items_ok (keys : list Z) :
  forall w,
  (forall k, In k keys -> exists part, getitem lineParts k = inr part) ->
  exists w',
    _getMetadata_items lineParts keys w = (inr tt, w') /\
    (forall k part, In k keys -> getitem lineParts k = inr part ->
       dict_get k (_headerLineContent w') = Some (strip part)) /\
    (forall k, ~ In k keys ->
       dict_get k (_headerLineContent w') = dict_get k (_headerLineContent w)).
Proof.
  induction keys as [|a keys IH]; intros w Hok.
  - exists w. split; [reflexivity|]. split; [intros k part []|auto].
  - destruct (Hok a (or_introl eq_refl)) as [pa Ha].
    set (w1 := mkWorld (files w)
                 (dict_set a (strip pa) (_headerLineContent w)) (stdout w)).
    destruct (IH w1) as (w' & Hrun & Hdone & Hrest);
      [intros k' Hin; apply Hok; right; exact Hin|].
    exists w'. split; [|split].
    + simpl. unfold bind at 1, lift. rewrite Ha.
      unfold bind at 1, header_set at 1. exact Hrun.
    + intros k' part Hin Hp.
      destruct (in_dec Z.eq_dec k' keys) as [I|I]; [exact (Hdone k' part I Hp)|].
      destruct Hin as [<-|Hin]; [|contradiction].
      rewrite (Hrest a I). simpl.
      rewrite dict_get_set_same. congruence.
    + intros k' Hn. rewrite Hrest by (intros I; apply Hn; right; exact I).
      simpl. apply dict_get_set_other. intros ->. apply Hn. left. reflexivity.
Qed.

(** Either every key can be indexed, or there is a first one that
    cannot. *)
Lemma first_failure (keys : list Z) :
  (forall k, In k keys -> exists part, getitem lineParts k = inr part) \/
  exists done k todo e,
    keys = done ++ k :: todo /\
    (forall k', In k' done -> exists part, getitem lineParts k' = inr part) /\
    getitem lineParts k = inl e.
Proof.
  induction keys as [|a keys IH].
  - left. intros k [].
  - destruct (getitem lineParts a) as [e|pa] eqn:Ha.
    + right. exists [], a, keys, e.
      split; [reflexivity|]. split; [intros k' []|exact Ha].
    + destruct IH as [IH|(done & k & todo & e & -> & Hd & Hk)].
      * left. intros k [<-|Hin]; eauto.
      * right. exists (a :: done), k, todo, e.
        split; [reflexivity|]. split; [|exact Hk].
        intros k' [<-|Hin]; eauto.
Qed.

End GetMetadata.

(** ** [parseHeader] *)

Lemma getitem_error {A} (l : list A) (i : Z) (e : exn) :
  getitem l i = inl e -> e = IndexError (lit "list index out of range").
Proof.
  unfold getitem, ok, throw.
  destruct ((0 <=? _) && _); [destruct (nth_error _ _)|]; congruence.
Qed.

Lemma format_error_line (a b c : str) :
  format (lit "{0} @ {1}: {2}") [a; b; c]
  = ok (a ++ lit " @ " ++ b ++ lit ": " ++ c).
Proof.
  unfold format. simpl. rewrite app_nil_r. reflexivity.
Qed.

Lemma parseHeader_except_run (vaw : TextIO) (c : Z) (self : VawFileReader)
    (e : exn) (w : World) :
  parseHeader_except vaw c self e w = (inr self, printed w (error_line vaw c e)).
Proof.
  unfold parseHeader_except, bind, lift. rewrite format_error_line.
  reflexivity.
Qed.

Lemma same_but_dataSource_refl (self : VawFileReader) :
  same_but_dataSource self self.
Proof. repeat split. Qed.

Lemma same_but_dataSource_trans (a b c : VawFileReader) :
  same_but_dataSource a b -> same_but_dataSource b c ->
  same_but_dataSource a c.
Proof.
  unfold same_but_dataSource. intros (A1 & A2 & A3 & A4) (B1 & B2 & B3 & B4).
  repeat split; congruence.
Qed.

(** A line after the first cannot raise and touches the instance only. *)
Lemma parseHeader_line_later (c : Z) (line : str) (self : VawFileReader)
    (w : World) :
  c <> 1 ->
  parseHeader_line c line self w
  = (inr (if _numberHeaderLines self =? c
          then set_dataSource self (attribution line) else self), w).
Proof.
  intros N. unfold parseHeader_line, bind.
  apply Z.eqb_neq in N. rewrite N. unfold ret.
  destruct (_numberHeaderLines self =? c); reflexivity.
Qed.

Lemma parseHeader_line_first (line : str) (self : VawFileReader) (w : World) :
  parseHeader_line 1 line self w
  = match _getMetadata line w with
    | (inl e, w') => (inl e, w')
    | (inr _, w') =>
        (inr (if _numberHeaderLines self =? 1
              then set_dataSource self (attribution line) else self), w')
    end.
Proof.
  unfold parseHeader_line, bind. simpl.
  destruct (_getMetadata line w) as [[e|u] w']; [reflexivity|].
  unfold ret. destruct (_numberHeaderLines self =? 1); reflexivity.
Qed.

(** The lines after the first: the world stays as it is, the data source
    is taken from the line whose number is the header-line count. *)
Lemma parseHeader_lines_later (vaw : TextIO) (lines : list str) :
  forall (c : Z) (self : VawFileReader) (w : World),
  1 <= c ->
  exists self',
    parseHeader_lines vaw c lines self w = (inr self', w) /\
    same_but_dataSource self self' /\
    (forall n line, nth_error lines n = Some line ->
       _numberHeaderLines self = c + Z.of_nat n + 1 ->
       _dataSource self' = Some (attribution line)) /\
    ((forall n, (n < List.length lines)%nat ->
        _numberHeaderLines self <> c + Z.of_nat n + 1) ->
     _dataSource self' = _dataSource self).
Proof.
  induction lines as [|l rest IH]; intros c self w Hc.
  - exists self. split; [reflexivity|].
    split; [apply same_but_dataSource_refl|].
    split; [intros [|n] line H; discriminate H | reflexivity].
  - set (self1 := if _numberHeaderLines self =? c + 1
                  then set_dataSource self (attribution l) else self).
    assert (S1 : same_but_dataSource self self1)
      by (unfold self1; destruct (_numberHeaderLines self =? _); repeat split).
    destruct (IH (c + 1) self1 w ltac:(lia)) as (self' & Hrun & Hsame & Hat & Hno).
    exists self'. split; [|split; [|split]].
    + simpl. unfold bind at 1, try_except.
      rewrite parseHeader_line_later by lia. exact Hrun.
    + exact (same_but_dataSource_trans _ _ _ S1 Hsame).
    + destruct S1 as (N1 & _).
      intros [|n] line Hn Hc'; simpl in Hn.
      * injection Hn as <-. rewrite Hno.
        -- unfold self1. replace (c + Z.of_nat 0 + 1) with (c + 1) in Hc' by lia.
           rewrite Hc', Z.eqb_refl. reflexivity.
        -- intros n Hlt. rewrite N1. lia.
      * apply (Hat n line Hn). rewrite N1. lia.
    + destruct S1 as (N1 & _).
      intros Hnone. rewrite Hno.
      * unfold self1.
        destruct (_numberHeaderLines self =? c + 1) eqn:E; [|reflexivity].
        apply Z.eqb_eq in E. exfalso.
        apply (Hnone O); [simpl; lia | lia].
      * intros n Hlt. rewrite N1.
        specialize (Hnone (S n)). simpl in Hnone. lia.
Qed.

Lemma getMetadata_keys (line : str) (w : World) (r : result unit) (w' : World) :
  _getMetadata line w = (r, w') ->
  files w' = files w /\ stdout w' = stdout w /\
  dict_keys (_headerLineContent w') = dict_keys (_headerLineContent w).
Proof.
  unfold _getMetadata, bind, header_keys. intros H.
  apply getMetadata_items_frame in H; auto.
Qed.

(** [parseHeader] on the lines of a file always ends normally. *)
Lemma parseHeader_lines_total (vaw : TextIO) (lines : list str)
    (self : VawFileReader) (w : World) :
  exists self' w',
    parseHeader_lines vaw 0 lines self w = (inr self', w') /\
    same_but_dataSource self self' /\
    files w' = files w /\
    dict_keys (_headerLineContent w') = dict_keys (_headerLineContent w).
Proof.
  destruct lines as [|l rest].
  - exists self, w. repeat split.
  - simpl. unfold bind at 1, try_except.
    rewrite parseHeader_line_first.
    destruct (_getMetadata l w) as [[e|u] w1] eqn:G;
      destruct (getMetadata_keys _ _ _ _ G) as (F & _ & K).
    + rewrite parseHeader_except_run.
      destruct (parseHeader_lines_later vaw rest 1 self
                  (printed w1 (error_line vaw 1 e)) ltac:(lia))
        as (self' & Hrun & Hsame & _).
      exists self', (printed w1 (error_line vaw 1 e)).
      split; [exact Hrun|]. split; [exact Hsame|]. split; assumption.
    + set (self1 := if _numberHeaderLines self =? 1
                    then set_dataSource self (attribution l) else self).
      assert (S1 : same_but_dataSource self self1)
        by (unfold self1; destruct (_numberHeaderLines self =? _); repeat split).
      destruct (parseHeader_lines_later vaw rest 1 self1 w1 ltac:(lia))
        as (self' & Hrun & Hsame & _).
      exists self', w1.
      split; [exact Hrun|].
      split; [exact (same_but_dataSource_trans _ _ _ S1 Hsame)|].
      split; assumption.
Qed.

Lemma parseHeader_total (self : VawFileReader) (w : World) (vaw : TextIO) :
  files w (_fullFileName self) = Some vaw ->
  exists self' w',
    parseHeader self w = (inr self', w') /\
    same_but_dataSource self self' /\
    files w' = files w /\
    dict_keys (_headerLineContent w') = dict_keys (_headerLineContent w).
Proof.
  intros F. unfold parseHeader, bind, open. rewrite F.
  apply parseHeader_lines_total.
Qed.

(** ** [str.replace] *)

Lemma starts_with_app (p rest : str) : starts_with p (p ++ rest) = true.
Proof.
  induction p as [|x p IH]; simpl; [reflexivity|].
  rewrite Ascii.eqb_refl. exact IH.
Qed.

Lemma replace_go_skip (old new q rest : str) :
  replace_go old new (List.length q) (q ++ rest) = replace_go old new O rest.
Proof.
  induction q as [|c q IH]; simpl; [|exact IH].
  destruct rest; reflexivity.
Qed.

Lemma replace_leading (old rest : str) :
  old <> [] -> replace old [] (old ++ rest) = replace old [] rest.
Proof.
  destruct old as [|x old]; [congruence|]. intros _.
  unfold replace. change ((x :: old) ++ rest) with (x :: old ++ rest).
  cbn [replace_go]. change (x :: old ++ rest) with ((x :: old) ++ rest).
  rewrite starts_with_app. simpl. apply replace_go_skip.
Qed.

Lemma replace_absent (old new s : str) :
  occurs old s = false -> replace old new s = s.
Proof.
  unfold replace. induction s as [|c s IH]; intros H; [reflexivity|].
  simpl in H. apply orb_false_iff in H as [H1 H2].
  cbn [replace_go]. rewrite H1, (IH H2). reflexivity.
Qed.

(** ** The first header line *)

Lemma parseHeader_first_ok (self : VawFileReader) (w : World) (vaw : TextIO)
    (line1 : str) (rest : list str) :
  files w (_fullFileName self) = Some vaw ->
  io_lines vaw = line1 :: rest ->
  (forall k, In k (dict_keys (_headerLineContent w)) ->
     exists part, getitem (split ";" line1) k = inr part) ->
  exists self' w',
    parseHeader self w = (inr self', w') /\
    stdout w' = stdout w /\
    (_numberHeaderLines self = 1 ->
     _dataSource self' = Some (attribution line1)) /\
    (forall k part, In k (dict_keys (_headerLineContent w)) ->
       getitem (split ";" line1) k = inr part ->
       dict_get k (_headerLineContent w') = Some (strip part)).
Proof.
  intros F L Hok. unfold parseHeader, bind at 1, open. rewrite F, L.
  simpl. unfold bind at 1, try_except.
  rewrite parseHeader_line_first.
  destruct (getMetadata_items_ok (split ";" line1)
              (dict_keys (_headerLineContent w)) w Hok) as (w1 & G & Hset & _).
  assert (G' : _getMetadata line1 w = (inr tt, w1)) by exact G.
  rewrite G'. destruct (getMetadata_keys _ _ _ _ G') as (_ & O & _).
  set (self1 := if _numberHeaderLines self =? 1
                then set_dataSource self (attribution line1) else self).
  assert (S1 : _numberHeaderLines self1 = _numberHeaderLines self)
    by (unfold self1; destruct (_numberHeaderLines self =? 1); reflexivity).
  destruct (parseHeader_lines_later vaw rest 1 self1 w1 ltac:(lia))
    as (self' & Hrun & _ & _ & Hno).
  exists self', w1. split; [exact Hrun|]. split; [exact O|]. split; [|exact Hset].
  intros H1. rewrite Hno.
  - unfold self1. rewrite H1. reflexivity.
  - intros n _. rewrite S1. lia.
Qed.

(** C7 as amended. On the line whose 1-based number is the header-line
    count, unless it is line 1 and a header field cannot be extracted from
    it, [parseHeader] stores the trimmed line with every occurrence of the
    prefix token removed: a line that starts with the token and does not
    hold it again is stored without it, a line without the token is stored
    as trimmed. A second header line made of the token and "VAW Glaciology
    2020" is stored as "VAW Glaciology 2020". *)
Theorem parseHeader_attribution (self : VawFileReader) (w : World)
    (vaw : TextIO) (n : nat) (line : str) :
  files w (_fullFileName self) = Some vaw ->
  nth_error (io_lines vaw) n = Some line ->
  _numberHeaderLines self = Z.of_nat n + 1 ->
  (n = O -> forall k, In k (dict_keys (_headerLineContent w)) ->
     exists part, getitem (split ";" line) k = inr part) ->
  (exists self' w',
     parseHeader self w = (inr self', w') /\
     _dataSource self' = Some (replace _DATA_SOURCE_PREFIX [] (strip line)) /\
     (forall rest, strip line = _DATA_SOURCE_PREFIX ++ rest ->
        occurs _DATA_SOURCE_PREFIX rest = false ->
        _dataSource self' = Some rest) /\
     (occurs _DATA_SOURCE_PREFIX (strip line) = false ->
      _dataSource self' = Some (strip line))) /\
  (exists self' w',
     init_header 2 (lit "f")
       (fresh_world [lit "x;Aletsch;17" ++ nl;
                     _DATA_SOURCE_PREFIX ++ lit "VAW Glaciology 2020" ++ nl])
     = (inr self', w') /\
     _dataSource self' = Some (lit "VAW Glaciology 2020")).
Proof.
  intros F Hn Hc Hfirst. split.
  - assert (exists self' w',
              parseHeader self w = (inr self', w') /\
              _dataSource self' = Some (attribution line))
      as (self' & w' & Hrun & Hds).
    { destruct (io_lines vaw) as [|line1 rest] eqn:L;
        [destruct n; discriminate Hn|].
      destruct n as [|n]; simpl in Hn.
      - injection Hn as ->.
        destruct (parseHeader_first_ok self w vaw line rest F L (Hfirst eq_refl))
          as (self' & w' & Hrun & _ & Hds & _).
        exists self', w'. split; [exact Hrun | apply Hds; exact Hc].
      - unfold parseHeader, bind at 1, open. rewrite F, L.
        simpl. unfold bind at 1, try_except.
        rewrite parseHeader_line_first.
        assert (N1 : (_numberHeaderLines self =? 1) = false)
          by (apply Z.eqb_neq; lia).
        rewrite N1.
        destruct (_getMetadata line1 w) as [[e|u] w1].
        + rewrite parseHeader_except_run.
          destruct (parseHeader_lines_later vaw rest 1 self
                      (printed w1 (error_line vaw 1 e)) ltac:(lia))
            as (self' & Hrun & _ & Hat & _).
          exists self', (printed w1 (error_line vaw 1 e)).
          split; [exact Hrun | apply (Hat n line Hn); lia].
        + destruct (parseHeader_lines_later vaw rest 1 self w1 ltac:(lia))
            as (self' & Hrun & _ & Hat & _).
          exists self', w1.
          split; [exact Hrun | apply (Hat n line Hn); lia]. }
    exists self', w'. split; [exact Hrun|]. split; [exact Hds|].
    unfold attribution in Hds. split.
    + intros rest E O. rewrite Hds, E, replace_leading by discriminate.
      rewrite (replace_absent _ _ _ O). reflexivity.
    + intros O. rewrite Hds, (replace_absent _ _ _ O). reflexivity.
  - eexists. eexists. split; vm_compute; reflexivity.
Qed.

Lemma parseHeader_attribution_witness :
  exists self' w',
    parseHeader (mkReader 1 (-1) (lit "f") None None)
      (mkWorld (one_file [lit "Rhone; 1 ;" ++ _DATA_SOURCE_PREFIX ++ lit "VAW" ++ nl])
         [(2, lit "VAW identifier")] [])
    = (inr self', w') /\
    _dataSource self'
    = Some (replace _DATA_SOURCE_PREFIX []
              (strip (lit "Rhone; 1 ;" ++ _DATA_SOURCE_PREFIX ++ lit "VAW" ++ nl))).
Proof.
  destruct (parseHeader_attribution (mkReader 1 (-1) (lit "f") None None)
      (mkWorld (one_file [lit "Rhone; 1 ;" ++ _DATA_SOURCE_PREFIX ++ lit "VAW" ++ nl])
         [(2, lit "VAW identifier")] [])
      (mkTextIO (lit "<f>") [lit "Rhone; 1 ;" ++ _DATA_SOURCE_PREFIX ++ lit "VAW" ++ nl])
      O (lit "Rhone; 1 ;" ++ _DATA_SOURCE_PREFIX ++ lit "VAW" ++ nl))
    as [(self' & w' & Hrun & Hds & _) _].
  - reflexivity.
  - reflexivity.
  - reflexivity.
  - intros _ k [<-|[]]. eexists. vm_compute. reflexivity.
  - exists self', w'. split; assumption.
Defined.

(** C7 as stated fails twice. A second header line that holds the token
    after other text loses it, where stripping a prefix would leave the
    line as it is; and a single header line that is only the attribution
    has no header fields, so the line raises before the data source is
    stored. *)
Lemma attribution_counterexample :
  (exists self' w',
     init_header 2 (lit "f")
       (fresh_world [lit "x;Aletsch;17" ++ nl;
                     lit "A " ++ _DATA_SOURCE_PREFIX ++ lit "B" ++ nl])
     = (inr self', w') /\
     _dataSource self' = Some (lit "A B") /\
     strip_prefix _DATA_SOURCE_PREFIX
       (strip (lit "A " ++ _DATA_SOURCE_PREFIX ++ lit "B" ++ nl))
     = lit "A " ++ _DATA_SOURCE_PREFIX ++ lit "B" /\
     lit "A B" <> lit "A " ++ _DATA_SOURCE_PREFIX ++ lit "B") /\
  (exists self' w',
     init_header 1 (lit "f")
       (fresh_world [_DATA_SOURCE_PREFIX ++ lit "VAW Glaciology 2020" ++ nl])
     = (inr self', w') /\
     _dataSource self' = None).
Proof.
  split.
  - eexists. eexists. split; [vm_compute; reflexivity|].
    split; [reflexivity|]. split; [vm_compute; reflexivity | discriminate].
  - eexists. eexists. split; vm_compute; reflexivity.
Qed.

Lemma parseHeader_cons (self : VawFileReader) (w : World) (vaw : TextIO)
    (line1 : str) (rest : list str) :
  files w (_fullFileName self) = Some vaw ->
  io_lines vaw = line1 :: rest ->
  parseHeader self w
  = match _getMetadata line1 w with
    | (inl e, w1) =>
        parseHeader_lines vaw 1 rest self (printed w1 (error_line vaw 1 e))
    | (inr _, w1) =>
        parseHeader_lines vaw 1 rest
          (if _numberHeaderLines self =? 1
           then set_dataSource self (attribution line1) else self) w1
    end.
Proof.
  intros F L. unfold parseHeader, bind at 1, open. rewrite F, L.
  simpl. unfold bind at 1, try_except.
  rewrite parseHeader_line_first.
  destruct (_getMetadata line1 w) as [[e|u] w1]; [|reflexivity].
  rewrite parseHeader_except_run. reflexivity.
Qed.

(** C6 as amended. Whatever the lines of the file are, [parseHeader] ends
    normally: an exception raised by the body of a line is caught, the line
    "source @ line number: error" is printed, and the loop goes on with the
    next line, so that a later header line still gives the data source. A
    field that cannot be extracted from line 1 is not absent afterwards: it
    is in the dictionary with the value it had before. *)
Theorem parseHeader_catches_line_errors (self : VawFileReader) (w : World)
    (vaw : TextIO) :
  files w (_fullFileName self) = Some vaw ->
  (exists self' w',
     parseHeader self w = (inr self', w') /\
     (forall n line, nth_error (io_lines vaw) (S n) = Some line ->
        _numberHeaderLines self = Z.of_nat (S n) + 1 ->
        _dataSource self' = Some (attribution line)) /\
     (forall line1 rest k e, io_lines vaw = line1 :: rest ->
        In k (dict_keys (_headerLineContent w)) ->
        getitem (split ";" line1) k = inl e ->
        stdout w' = stdout w ++ [error_line vaw 1 e] /\
        dict_get k (_headerLineContent w') = dict_get k (_headerLineContent w) /\
        exists v, dict_get k (_headerLineContent w') = Some v)) /\
  (forall c line rest self0 w0 e w1,
     parseHeader_line (c + 1) line self0 w0 = (inl e, w1) ->
     parseHeader_lines vaw c (line :: rest) self0 w0
     = parseHeader_lines vaw (c + 1) rest self0
         (printed w1 (error_line vaw (c + 1) e))).
Proof.
  intros F. split.
  - destruct (io_lines vaw) as [|line1 rest] eqn:L.
    { exists self, w. split.
      - unfold parseHeader, bind, open. rewrite F, L. reflexivity.
      - split; [intros n line H; discriminate H|].
        intros line1 rest k e H. discriminate H. }
    rewrite (parseHeader_cons self w vaw line1 rest F L).
    destruct (first_failure (split ";" line1) (dict_keys (_headerLineContent w)))
      as [Hok|(done & k0 & todo & e0 & K & Hdone & Hk0)].
    + destruct (getMetadata_items_ok _ _ w Hok) as (w1 & G & _).
      assert (G' : _getMetadata line1 w = (inr tt, w1)) by exact G.
      rewrite G'.
      destruct (parseHeader_lines_later vaw rest 1
                  (if _numberHeaderLines self =? 1
                   then set_dataSource self (attribution line1) else self)
                  w1 ltac:(lia)) as (self' & Hrun & _ & Hat & _).
      exists self', w1. split; [exact Hrun|]. split.
      * intros n line Hn Hc. apply (Hat n line Hn).
        destruct (_numberHeaderLines self =? 1);
          cbn [_numberHeaderLines set_dataSource]; lia.
      * intros l1 r k e E Hin Hk. injection E as <- <-.
        destruct (Hok k Hin) as [part Hp]. congruence.
    + destruct (getMetadata_items_fail _ done k0 todo e0 w Hdone Hk0)
        as (w1 & G & _ & Hrest).
      assert (G' : _getMetadata line1 w = (inl e0, w1))
        by (unfold _getMetadata, bind at 1, header_keys; rewrite K; exact G).
      rewrite G'. destruct (getMetadata_keys _ _ _ _ G') as (_ & O & _).
      destruct (parseHeader_lines_later vaw rest 1 self
                  (printed w1 (error_line vaw 1 e0)) ltac:(lia))
        as (self' & Hrun & _ & Hat & _).
      exists self', (printed w1 (error_line vaw 1 e0)).
      split; [exact Hrun|]. split.
      * intros n line Hn Hc. apply (Hat n line Hn). lia.
      * intros l1 r k e E Hin Hk. injection E as <- <-.
        rewrite (getitem_error _ _ _ Hk), <- (getitem_error _ _ _ Hk0).
        assert (Hnot : ~ In k done)
          by (intros I; destruct (Hdone k I) as [part Hp]; congruence).
        split; [simpl; rewrite O; reflexivity|].
        split; [exact (Hrest k Hnot)|].
        simpl. rewrite (Hrest k Hnot). apply dict_get_key. exact Hin.
  - intros c line rest self0 w0 e w1 H.
    simpl. unfold bind at 1, try_except. rewrite H.
    rewrite parseHeader_except_run. reflexivity.
Qed.

Lemma parseHeader_catches_line_errors_witness :
  exists self' w',
    parseHeader (mkReader 2 (-1) (lit "f") None None)
      (labelled (fresh_world [lit "Aletsch" ++ nl; lit "source" ++ nl]))
    = (inr self', w') /\
    _dataSource self' = Some (attribution (lit "source" ++ nl)) /\
    stdout w' = [lit "<f> @ 1: list index out of range"] /\
    dict_get 2 (_headerLineContent w') = Some (lit "VAW identifier").
Proof.
  destruct (parseHeader_catches_line_errors
              (mkReader 2 (-1) (lit "f") None None)
              (labelled (fresh_world [lit "Aletsch" ++ nl; lit "source" ++ nl]))
              (mkTextIO (lit "<f>") [lit "Aletsch" ++ nl; lit "source" ++ nl])
              eq_refl) as [(self' & w' & Hrun & Hat & Hfail) _].
  exists self', w'. split; [exact Hrun|].
  split; [apply (Hat O); reflexivity|].
  destruct (Hfail (lit "Aletsch" ++ nl) [lit "source" ++ nl] 2
              (IndexError (lit "list index out of range")) eq_refl)
    as (Hout & Hget & _).
  - simpl. auto.
  - reflexivity.
  - split; [exact Hout | exact Hget].
Defined.

(** C6 as stated fails: a first line with one segment leaves both header
    fields in the dictionary, holding their labels; they are not absent. *)
Lemma failed_field_not_absent_counterexample :
  exists self' w',
    init_header 1 (lit "f") (fresh_world [lit "Aletsch" ++ nl])
    = (inr self', w') /\
    getitem (split ";" (lit "Aletsch" ++ nl)) _HEADER_POSITION_SHORTNAME
    = inl (IndexError (lit "list index out of range")) /\
    dict_get _HEADER_POSITION_SHORTNAME (_headerLineContent w')
    = Some (lit "Glacier short name") /\
    dict_get _HEADER_POSITION_VAWIDENTIFIER (_headerLineContent w')
    = Some (lit "VAW identifier") /\
    dict_get _HEADER_POSITION_SHORTNAME (_headerLineContent w') <> None.
Proof.
  eexists. eexists. split; [vm_compute; reflexivity|].
  split; [reflexivity|]. split; [reflexivity|]. split; [reflexivity|].
  discriminate.
Qed.

(** C10. [_getMetadata] writes one position at a time, in the order of the
    dictionary: when a position cannot be indexed, the positions before it
    hold their extracted values, the failed position and every other one
    hold what they held, and the exception reaches the handler of
    [parseHeader], which prints it and goes on. In a new reader, a first
    line of two segments leaves position 1 extracted and position 2 with its
    label. *)
Theorem getMetadata_not_atomic (line : str) (w : World)
    (done : list Z) (k : Z) (todo : list Z) (e : exn) :
  dict_keys (_headerLineContent w) = done ++ k :: todo ->
  (forall k', In k' done -> exists part, getitem (split ";" line) k' = inr part) ->
  getitem (split ";" line) k = inl e ->
  (exists w',
     _getMetadata line w = (inl e, w') /\
     (forall k' part, In k' done -> getitem (split ";" line) k' = inr part ->
        dict_get k' (_headerLineContent w') = Some (strip part)) /\
     dict_get k (_headerLineContent w') = dict_get k (_headerLineContent w) /\
     (forall k', ~ In k' done ->
        dict_get k' (_headerLineContent w')
        = dict_get k' (_headerLineContent w)) /\
     (forall vaw rest self,
        parseHeader_lines vaw 0 (line :: rest) self w
        = parseHeader_lines vaw 1 rest self
            (printed w' (error_line vaw 1 e)))) /\
  (exists self' w',
     init_header base_numberHeaderLines (lit "f")
       (fresh_world [lit "x; Aletsch " ++ nl])
     = (inr self', w') /\
     _headerLineContent w'
     = [(1, lit "Aletsch"); (2, lit "VAW identifier")] /\
     stdout w' = [lit "<f> @ 1: list index out of range";
                  lit "Given data file -> f"]).
Proof.
  intros K Hdone Hk. split.
  - destruct (getMetadata_items_fail _ done k todo e w Hdone Hk)
      as (w' & G & Hset & Hrest).
    assert (G' : _getMetadata line w = (inl e, w'))
      by (unfold _getMetadata, bind at 1, header_keys; rewrite K; exact G).
    exists w'. split; [exact G'|]. split; [exact Hset|].
    assert (Hnot : ~ In k done)
      by (intros I; destruct (Hdone k I) as [part Hp]; congruence).
    split; [exact (Hrest k Hnot)|]. split; [exact Hrest|].
    intros vaw rest self. simpl. unfold bind at 1, try_except.
    rewrite parseHeader_line_first, G', parseHeader_except_run. reflexivity.
  - eexists. eexists. split; [vm_compute; reflexivity|].
    split; reflexivity.
Qed.

Lemma getMetadata_not_atomic_witness :
  exists w',
    _getMetadata (lit "x; Aletsch " ++ nl)
      (labelled (fresh_world [lit "x; Aletsch " ++ nl]))
    = (inl (IndexError (lit "list index out of range")), w') /\
    dict_get 1 (_headerLineContent w') = Some (lit "Aletsch") /\
    dict_get 2 (_headerLineContent w') = Some (lit "VAW identifier").
Proof.
  destruct (getMetadata_not_atomic (lit "x; Aletsch " ++ nl)
              (labelled (fresh_world [lit "x; Aletsch " ++ nl]))
              [1] 2 [] (IndexError (lit "list index out of range")))
    as [(w' & Hrun & Hset & Hkeep & _) _].
  - reflexivity.
  - intros k' [<-|[]]. eexists. vm_compute. reflexivity.
  - reflexivity.
  - exists w'. split; [exact Hrun|]. split.
    + rewrite (Hset 1 (lit " Aletsch " ++ nl));
        [reflexivity | left; reflexivity | reflexivity].
    + rewrite Hkeep. reflexivity.
Defined.

(** ** Construction *)

Lemma init_header_inr (nhl : Z) (fullFileName : str) (w : World)
    (self : VawFileReader) (w1 : World) :
  init_header nhl fullFileName w = (inr self, w1) ->
  exists w2,
    parseHeader (mkReader nhl (-1) fullFileName None None) (labelled w)
    = (inr self, w2) /\
    w1 = printed w2 (lit "Given data file -> " ++ fullFileName) /\
    same_but_dataSource (mkReader nhl (-1) fullFileName None None) self /\
    dict_keys (_headerLineContent w2) = dict_keys (_headerLineContent (labelled w)).
Proof.
  unfold init_header.
  unfold bind at 1, header_set at 1. unfold bind at 1, header_set at 1.
  unfold bind at 1, AsciiFileDateReader_init, ret at 1.
  change (mkWorld _ _ _) with (labelled w).
  unfold bind at 1.
  set (self0 := mkReader nhl (-1) fullFileName None None).
  destruct (files (labelled w) (_fullFileName self0)) as [vaw|] eqn:F.
  - destruct (parseHeader_total self0 (labelled w) vaw F)
      as (self' & w' & Hrun & Hsame & _ & K).
    rewrite Hrun. unfold bind, print, ret. intros H. injection H as <- <-.
    exists w'. repeat split; try assumption; apply Hsame.
  - unfold parseHeader, bind at 1, open. rewrite F. discriminate.
Qed.

Lemma init_header_fields (nhl : Z) (fullFileName : str) (w : World)
    (self : VawFileReader) (w1 : World) :
  init_header nhl fullFileName w = (inr self, w1) ->
  _numberDataLines self = -1 /\
  (exists name, dict_get _HEADER_POSITION_SHORTNAME (_headerLineContent w1)
                = Some name) /\
  (exists idText, dict_get _HEADER_POSITION_VAWIDENTIFIER (_headerLineContent w1)
                  = Some idText).
Proof.
  intros H. apply init_header_inr in H as (w2 & _ & -> & Hsame & K).
  split; [apply Hsame|].
  split; apply dict_get_key; simpl; rewrite K; unfold labelled; simpl.
  - apply dict_set_keeps_key, dict_set_has_key.
  - apply dict_set_has_key.
Qed.

Lemma last_cons {A} (a : A) (l : list A) (d : A) :
  List.last (a :: l) d = List.last l a.
Proof.
  revert a d. induction l as [|b l IH]; intros a d; [reflexivity|].
  change (List.last (a :: b :: l) d) with (List.last (b :: l) d).
  rewrite (IH b d), (IH b a). reflexivity.
Qed.

Lemma find_glacier_last (X : Z) (values : list Glacier) :
  find_glacier X values = last_match X values.
Proof.
  unfold find_glacier, last_match. generalize (@None Glacier) as acc.
  induction values as [|g values IH]; intros acc; [reflexivity|].
  simpl. destruct (pkVaw g =? X).
  - rewrite IH. simpl map. rewrite last_cons. reflexivity.
  - apply IH.
Qed.

Lemma last_some_nil {A} (l : list A) :
  List.last (map Some l) None = None <-> l = [].
Proof.
  induction l as [|a l _] using rev_ind; [split; reflexivity|].
  rewrite map_app. cbn [map]. rewrite last_last. split; [discriminate|].
  intros H. destruct l; discriminate H.
Qed.

Lemma last_some_snoc {A} (l : list A) (g : A) :
  List.last (map Some l) None = Some g <-> exists earlier, l = earlier ++ [g].
Proof.
  induction l as [|a l _] using rev_ind.
  - split; [discriminate | intros [[|? ?] H]; discriminate H].
  - rewrite map_app. cbn [map]. rewrite last_last. split.
    + intros H. injection H as ->. exists l. reflexivity.
    + intros [earlier H]. apply app_inj_tail in H as [_ ->]. reflexivity.
Qed.

Lemma last_match_none (X : Z) (values : list Glacier) :
  last_match X values = None <-> forall g, In g values -> pkVaw g <> X.
Proof.
  unfold last_match. rewrite last_some_nil. split.
  - intros H g Hin E.
    assert (I : In g (filter (fun g => pkVaw g =? X) values))
      by (apply filter_In; split; [exact Hin | apply Z.eqb_eq; exact E]).
    rewrite H in I. exact I.
  - intros H. induction values as [|g values IH]; [reflexivity|].
    simpl. destruct (pkVaw g =? X) eqn:E.
    + apply Z.eqb_eq in E. exfalso. apply (H g); [left; reflexivity | exact E].
    + apply IH. intros g' Hin. apply H. right. exact Hin.
Qed.

Lemma last_match_some (X : Z) (values : list Glacier) (g : Glacier) :
  last_match X values = Some g <->
  exists earlier, filter (fun g => pkVaw g =? X) values = earlier ++ [g].
Proof.
  unfold last_match. apply last_some_snoc.
Qed.

Lemma last_match_pkVaw (X : Z) (values : list Glacier) (g : Glacier) :
  last_match X values = Some g -> In g values /\ pkVaw g = X.
Proof.
  intros H. apply last_match_some in H as [earlier H].
  assert (I : In g (filter (fun g => pkVaw g =? X) values))
    by (rewrite H; apply in_or_app; right; left; reflexivity).
  apply filter_In in I as [I E]. apply Z.eqb_eq in E. auto.
Qed.

Lemma format_not_found (a b : str) :
  format
    (lit "No corresponding glacier found. Header information given VAW-PK {0} and short name {1}")
    [a; b]
  = ok (not_found_message a b).
Proof.
  unfold format, not_found_message. simpl. rewrite app_nil_r. reflexivity.
Qed.

(** What the second half of [__init__] does once the identifier is read. *)
Lemma init_resolve_run (glaciers : list (str * Glacier)) (self : VawFileReader)
    (w1 : World) (idText name : str) (X : Z) :
  dict_get _HEADER_POSITION_VAWIDENTIFIER (_headerLineContent w1) = Some idText ->
  dict_get _HEADER_POSITION_SHORTNAME (_headerLineContent w1) = Some name ->
  py_int idText = inr X ->
  init_resolve glaciers self w1
  = match last_match X (map snd glaciers) with
    | Some g => (inr (set_glacier self g), w1)
    | None => (inl (GlacierNotFoundError (not_found_message idText name)), w1)
    end.
Proof.
  intros Hid Hname HX. unfold init_resolve.
  unfold bind at 1, header_get at 1. rewrite Hid.
  unfold bind at 1, lift at 1. rewrite HX.
  rewrite find_glacier_last.
  destruct (last_match X (map snd glaciers)); [reflexivity|].
  unfold bind at 1, header_get at 1. rewrite Hid.
  unfold bind at 1, header_get at 1. rewrite Hname.
  unfold bind, lift. rewrite format_not_found. reflexivity.
Qed.

(** C2. Once the header is parsed and its identifier field reads as the
    integer [X], construction raises [GlacierNotFoundError] exactly when no
    glacier of the registry has [pkVaw = X]; the error then carries the
    identifier text and the short name of the header, and no reader is
    returned. *)
Theorem construction_raises_GlacierNotFound (nhl : Z) (fullFileName : str)
    (glaciers : list (str * Glacier)) (w : World) (self : VawFileReader)
    (w1 : World) (idText : str) (X : Z) :
  init_header nhl fullFileName w = (inr self, w1) ->
  dict_get _HEADER_POSITION_VAWIDENTIFIER (_headerLineContent w1) = Some idText ->
  py_int idText = inr X ->
  ((exists message w2,
      __init__ nhl fullFileName glaciers w
      = (inl (GlacierNotFoundError message), w2))
   <-> (forall key g, In (key, g) glaciers -> pkVaw g <> X)) /\
  (forall e w2,
     __init__ nhl fullFileName glaciers w = (inl e, w2) ->
     exists name,
       dict_get _HEADER_POSITION_SHORTNAME (_headerLineContent w1) = Some name /\
       e = GlacierNotFoundError
             (lit "No corresponding glacier found. Header information given VAW-PK "
              ++ idText ++ lit " and short name " ++ name)) /\
  ((forall key g, In (key, g) glaciers -> pkVaw g <> X) ->
   forall self' w2,
     __init__ nhl fullFileName glaciers w <> (inr self', w2)).
Proof.
  intros H Hid HX.
  destruct (init_header_fields _ _ _ _ _ H) as (_ & [name Hname] & _).
  assert (R : __init__ nhl fullFileName glaciers w
              = match last_match X (map snd glaciers) with
                | Some g => (inr (set_glacier self g), w1)
                | None =>
                    (inl (GlacierNotFoundError (not_found_message idText name)), w1)
                end)
    by (unfold __init__, bind; rewrite H;
        apply init_resolve_run; assumption).
  assert (N : last_match X (map snd glaciers) = None <->
              (forall key g, In (key, g) glaciers -> pkVaw g <> X)).
  { rewrite last_match_none. split.
    - intros A key g Hin. apply A. apply in_map_iff.
      exists (key, g). auto.
    - intros A g Hin. apply in_map_iff in Hin as [[key g'] [E Hin]].
      simpl in E. subst g'. exact (A key g Hin). }
  rewrite R. split; [|split].
  - rewrite <- N. destruct (last_match X (map snd glaciers)).
    + split; [intros (m & w2 & A); discriminate A | discriminate].
    + split; [reflexivity | intros _; eauto].
  - intros e w2 A. exists name. split; [exact Hname|].
    destruct (last_match X (map snd glaciers)); [discriminate A|].
    injection A as <- _. reflexivity.
  - intros A self' w2. apply N in A. rewrite A. discriminate.
Qed.

Lemma construction_raises_GlacierNotFound_witness :
  exists message w2,
    __init__ 1 (lit "f") [(lit "a", mkGlacier 18 (lit "Rhone"))]
      (fresh_world [lit "x; Aletsch ; 17 " ++ nl])
    = (inl (GlacierNotFoundError message), w2).
Proof.
  eapply (construction_raises_GlacierNotFound 1 (lit "f")
            [(lit "a", mkGlacier 18 (lit "Rhone"))]
            (fresh_world [lit "x; Aletsch ; 17 " ++ nl]) _ _ (lit "17") 17).
  - vm_compute. reflexivity.
  - reflexivity.
  - reflexivity.
  - intros key g [E|[]]. injection E as _ <-. discriminate.
Defined.

(** C3. Once the header is parsed and its identifier field reads as the
    integer [X], the reader is bound to the last value of the registry, in
    its order, whose [pkVaw] is [X], whatever comes before or after it; a
    constructed reader's glacier has [pkVaw = X]. *)
Theorem construction_binds_last_match (nhl : Z) (fullFileName : str)
    (glaciers : list (str * Glacier)) (w : World) (self : VawFileReader)
    (w1 : World) (idText : str) (X : Z) :
  init_header nhl fullFileName w = (inr self, w1) ->
  dict_get _HEADER_POSITION_VAWIDENTIFIER (_headerLineContent w1) = Some idText ->
  py_int idText = inr X ->
  (forall earlier g,
     filter (fun g => pkVaw g =? X) (map snd glaciers) = earlier ++ [g] ->
     __init__ nhl fullFileName glaciers w = (inr (set_glacier self g), w1)) /\
  (forall self' w2,
     __init__ nhl fullFileName glaciers w = (inr self', w2) ->
     exists earlier g,
       filter (fun g => pkVaw g =? X) (map snd glaciers) = earlier ++ [g] /\
       _glacier self' = Some g /\ pkVaw g = X).
Proof.
  intros H Hid HX.
  destruct (init_header_fields _ _ _ _ _ H) as (_ & [name Hname] & _).
  assert (R : __init__ nhl fullFileName glaciers w
              = match last_match X (map snd glaciers) with
                | Some g => (inr (set_glacier self g), w1)
                | None =>
                    (inl (GlacierNotFoundError (not_found_message idText name)), w1)
                end)
    by (unfold __init__, bind; rewrite H;
        apply init_resolve_run; assumption).
  rewrite R. split.
  - intros earlier g E.
    assert (L : last_match X (map snd glaciers) = Some g)
      by (apply last_match_some; exists earlier; exact E).
    rewrite L. reflexivity.
  - intros self' w2 A.
    destruct (last_match X (map snd glaciers)) as [g|] eqn:L; [|discriminate A].
    injection A as <- _.
    destruct (proj1 (last_match_some _ _ _) L) as [earlier E].
    exists earlier, g. split; [exact E|]. split; [reflexivity|].
    apply (last_match_pkVaw _ _ _ L).
Qed.

Lemma construction_binds_last_match_witness :
  exists self w1,
    __init__ 1 (lit "f")
      [(lit "a", mkGlacier 17 (lit "first")); (lit "b", mkGlacier 5 (lit "other"));
       (lit "c", mkGlacier 17 (lit "last")); (lit "d", mkGlacier 6 (lit "tail"))]
      (fresh_world [lit "x; Aletsch ; 17 " ++ nl])
    = (inr (set_glacier self (mkGlacier 17 (lit "last"))), w1).
Proof.
  eexists. eexists.
  eapply (construction_binds_last_match 1 (lit "f") _
            (fresh_world [lit "x; Aletsch ; 17 " ++ nl]) _ _ (lit "17") 17
            ltac:(vm_compute; reflexivity) eq_refl eq_refl).
  instantiate (1 := [mkGlacier 17 (lit "first")]). reflexivity.
Defined.

(** C9. A constructed base reader reports -1 data lines, and parsing the
    header again, in whatever world, leaves it at -1; the date normalisers
    are functions of their tokens and the accessor only reads. *)
Theorem numberDataLines_sentinel (nhl : Z) (fullFileName : str)
    (glaciers : list (str * Glacier)) (w : World) (self : VawFileReader)
    (w1 : World) :
  __init__ nhl fullFileName glaciers w = (inr self, w1) ->
  numberDataLines self = -1 /\
  (forall w2 self' w3,
     parseHeader self w2 = (inr self', w3) -> numberDataLines self' = -1).
Proof.
  unfold __init__, bind at 1.
  destruct (init_header nhl fullFileName w) as [[e|self0] w0] eqn:H;
    [discriminate|].
  destruct (init_header_fields _ _ _ _ _ H) as (D & _ & _).
  intros R.
  assert (S : numberDataLines self = -1).
  { unfold init_resolve in R.
    unfold bind at 1 in R. destruct (header_get _ w0) as [[e|idText] wa];
      [discriminate R|].
    unfold bind at 1 in R. destruct (lift (py_int idText) wa) as [[e|X] wb];
      [discriminate R|].
    destruct (find_glacier X (map snd glaciers)) as [g|].
    - injection R as <- _. exact D.
    - unfold bind at 1 in R. destruct (header_get _ wb) as [[e|a0] wc];
        [discriminate R|].
      unfold bind at 1 in R. destruct (header_get _ wc) as [[e|a1] wd];
        [discriminate R|].
      unfold bind at 1 in R. destruct (lift _ wd) as [[e|m] we];
        discriminate R. }
  split; [exact S|].
  intros w2 self' w3 P.
  destruct (files w2 (_fullFileName self)) as [vaw|] eqn:F.
  - destruct (parseHeader_total self w2 vaw F) as (s & w' & Hrun & Hsame & _).
    rewrite Hrun in P. injection P as <- _.
    unfold numberDataLines in *. destruct Hsame as (_ & -> & _). exact S.
  - unfold parseHeader, bind at 1, open in P. rewrite F in P. discriminate P.
Qed.

Lemma numberDataLines_sentinel_witness :
  numberDataLines
    (mkReader base_numberHeaderLines (-1) (lit "f") None
       (Some (mkGlacier 17 (lit "Aletsch")))) = -1.
Proof.
  refine (proj1 (numberDataLines_sentinel base_numberHeaderLines (lit "f")
            [(lit "a", mkGlacier 17 (lit "Aletsch"))]
            (fresh_world [lit "x; Aletsch ; 17 " ++ nl]) _
            (mkWorld (one_file [lit "x; Aletsch ; 17 " ++ nl])
               [(1, lit "Aletsch"); (2, lit "17")]
               [lit "Given data file -> f"]) _)).
  vm_compute. reflexivity.
Defined.

(** * Further properties *)

(** ** The normalisers on other tokens *)

Lemma getitem_nth {A} (l : list A) (i : nat) (a : A) :
  nth_error l i = Some a -> getitem l (Z.of_nat i) = ok a.
Proof.
  intros H. unfold getitem.
  assert (L : (i < List.length l)%nat)
    by (apply nth_error_Some; congruence).
  destruct (Z.ltb_spec (Z.of_nat i) 0) as [N|_]; [lia|].
  destruct (Z.leb_spec 0 (Z.of_nat i)) as [_|N]; [|lia].
  destruct (Z.ltb_spec (Z.of_nat i) (Z.of_nat (List.length l))) as [_|N]; [|lia].
  simpl. rewrite Nat2Z.id, H. reflexivity.
Qed.

Lemma getitem_0 {A} (a : A) (l : list A) : getitem (a :: l) 0 = ok a.
Proof. exact (getitem_nth (a :: l) 0 a eq_refl). Qed.

Lemma getitem_1 {A} (a b : A) (l : list A) : getitem (a :: b :: l) 1 = ok b.
Proof. exact (getitem_nth (a :: b :: l) 1 b eq_refl). Qed.

Lemma getitem_2 {A} (a b c : A) (l : list A) :
  getitem (a :: b :: c :: l) 2 = ok c.
Proof. exact (getitem_nth (a :: b :: c :: l) 2 c eq_refl). Qed.

Lemma split_nonempty (sep : ascii) (s : str) :
  exists p ps, split sep s = p :: ps.
Proof.
  induction s as [|c s (p & ps & IH)]; simpl; [eauto|].
  destruct (Ascii.eqb c sep); [eauto|]. rewrite IH. eauto.
Qed.

(** With three parts or more the first three decide the result. *)
Lemma reformateDate_parts (s p0 p1 p2 : str) (rest : list str) :
  split "." s = p0 :: p1 :: p2 :: rest ->
  _reformateDate s = with_quality quality_code (normalise_tokens p0 p1 p2).
Proof.
  intros H. unfold _reformateDate. rewrite H.
  rewrite getitem_0, getitem_1, getitem_2.
  unfold normalise_tokens, sentinel_value. cbn [rbind ok].
  destruct (str_eqb p0 (lit "00")), (str_eqb p1 (lit "00")); cbn [rbind ok orb];
    repeat match goal with
           | |- context [py_int ?t] => destruct (py_int t); cbn [rbind ok]
           | |- context [date_new ?a ?b ?c] => destruct (date_new a b c); cbn [rbind ok]
           end; reflexivity.
Qed.

Lemma reformateDate_one_part (s p0 : str) :
  split "." s = [p0] ->
  _reformateDate s = inl (IndexError (lit "list index out of range")).
Proof.
  intros H. unfold _reformateDate. rewrite H.
  change (getitem [p0] 0) with (ok p0).
  change (getitem [p0] 1)
    with (@throw str (IndexError (lit "list index out of range"))).
  cbn [rbind ok throw].
  destruct (str_eqb p0 (lit "00")); reflexivity.
Qed.

Lemma reformateDate_two_parts (s p0 p1 : str) :
  split "." s = [p0; p1] ->
  exists e, _reformateDate s = inl e.
Proof.
  intros H. unfold _reformateDate. rewrite H.
  change (getitem [p0; p1] 0) with (ok p0).
  change (getitem [p0; p1] 1) with (ok p1).
  change (getitem [p0; p1] 2)
    with (@throw str (IndexError (lit "list index out of range"))).
  cbn [rbind ok throw].
  destruct (str_eqb p0 (lit "00")), (str_eqb p1 (lit "00")); cbn [rbind ok];
    repeat match goal with
           | |- context [py_int ?t] => destruct (py_int t); cbn [rbind ok]
           end; eauto.
Qed.





(** X1. A dotted token needs three parts: a token without a dot raises
    [IndexError], and so a token with one dot never gives a result. *)
Theorem reformateDate_needs_three_parts (s : str) :
  has_char "." s = false ->
  _reformateDate s = inl (IndexError (lit "list index out of range")) /\
  (forall d, has_char "." d = false ->
     exists e, _reformateDate (d ++ "."%char :: s) = inl e).
Proof.
  intros Hs. split.
  - apply (reformateDate_one_part s s), split_nosep, Hs.
  - intros d Hd. apply (reformateDate_two_parts _ d s).
    rewrite (split_app_sep _ _ _ Hd), (split_nosep _ _ Hs). reflexivity.
Qed.

Lemma reformateDate_needs_three_parts_witness :
  _reformateDate (lit "20180615")
  = inl (IndexError (lit "list index out of range")).
Proof.
  apply (reformateDate_needs_three_parts (lit "20180615")). reflexivity.
Defined.

(** X2. Whatever follows a third dot is ignored: [d.m.y.rest] gives what
    [d.m.y] gives. *)
Theorem reformateDate_ignores_further_parts (d m y rest : str) :
  has_char "." d = false -> has_char "." m = false -> has_char "." y = false ->
  _reformateDate (d ++ "."%char :: m ++ "."%char :: y ++ "."%char :: rest)
  = _reformateDate (d ++ "."%char :: m ++ "."%char :: y).
Proof.
  intros Hd Hm Hy.
  rewrite (reformateDate_rule d m y Hd Hm Hy).
  destruct (split_nonempty "." rest) as (p & ps & R).
  apply (reformateDate_parts _ d m y (p :: ps)).
  rewrite (split_app_sep _ _ _ Hd), (split_app_sep _ _ _ Hm),
    (split_app_sep _ _ _ Hy), R.
  reflexivity.
Qed.

Lemma reformateDate_ignores_further_parts_witness :
  _reformateDate (lit "15.06.2020.12.30") = _reformateDate (lit "15.06.2020").
Proof.
  apply (reformateDate_ignores_further_parts
           (lit "15") (lit "06") (lit "2020") (lit "12.30")); reflexivity.
Defined.

(** Every result of the rule is a calendar date; an Estimated one has the
    default day or the default month. *)
Lemma rule_result (f : DateQualityTypeEnum -> quality) (d m y : str)
    (dt : date) (q : quality) :
  with_quality f (normalise_tokens d m y) = inr (dt, q) ->
  valid_date (year dt) (month dt) (day dt) = true /\
  (q = f Precisely \/ q = f Estimated /\ (day dt = 1 \/ month dt = 9)).
Proof.
  intros H. apply with_quality_inr in H as (t & H & ->).
  apply normalise_tokens_inr in H as (Hd & Hm & _ & Hv & ->).
  split; [exact Hv|].
  unfold sentinel_value, ok in Hd, Hm.
  destruct (str_eqb d (lit "00")), (str_eqb m (lit "00")); cbn [orb].
  - right. split; [reflexivity|]. left. congruence.
  - right. split; [reflexivity|]. left. congruence.
  - right. split; [reflexivity|]. right. congruence.
  - left. reflexivity.
Qed.

(** X3. Whatever the token, a date [_reformateDate] returns is a calendar
    date with a year from 1 to 9999, its quality is the code 1 or the code
    11, and with the code 11 the day is 1 or the month is 9. *)
Theorem reformateDate_returns_calendar_date (s : str) (dt : date) (q : quality) :
  _reformateDate s = inr (dt, q) ->
  valid_date (year dt) (month dt) (day dt) = true /\
  1 <= year dt <= 9999 /\
  (q = QualityCode 1 \/ q = QualityCode 11 /\ (day dt = 1 \/ month dt = 9)).
Proof.
  intros H.
  assert (P : valid_date (year dt) (month dt) (day dt) = true /\
              (q = QualityCode 1 \/
               q = QualityCode 11 /\ (day dt = 1 \/ month dt = 9))).
  { destruct (split "." s) as [|p0 [|p1 [|p2 rest]]] eqn:S.
    - destruct (split_nonempty "." s) as (p & ps & S'). congruence.
    - rewrite (reformateDate_one_part s p0 S) in H. discriminate H.
    - destruct (reformateDate_two_parts s p0 p1 S) as [e E]. congruence.
    - rewrite (reformateDate_parts s p0 p1 p2 rest S) in H.
      exact (rule_result quality_code _ _ _ _ _ H). }
  destruct P as [V Q]. split; [exact V|]. split; [|exact Q].
  unfold valid_date in V.
  repeat (apply andb_true_iff in V as [V ?]). lia.
Qed.

Lemma reformateDate_returns_calendar_date_witness :
  valid_date 2018 9 1 = true /\
  1 <= 2018 <= 9999 /\
  (QualityCode 11 = QualityCode 1 \/
   QualityCode 11 = QualityCode 11 /\ (1 = 1 \/ 9 = 9)).
Proof.
  apply (reformateDate_returns_calendar_date (lit "00.00.2018")
           (mkdate 2018 9 1) (QualityCode 11)).
  reflexivity.
Defined.













(** X8. For a year of four characters and a month and a day of two, none
    with a dot, [_reformateDateMmDd] on the month-day token and the year
    ends as the dotted normaliser does on [dd.mm.yyyy]: the same exception,
    or the same date with the same quality tag. *)
Theorem reformateDateMmDd_agrees_with_dotted (dd mm yyyy : str) :
  List.length dd = 2%nat -> List.length mm = 2%nat ->
  List.length yyyy = 4%nat ->
  has_char "." dd = false -> has_char "." mm = false ->
  has_char "." yyyy = false ->
  tagged (_reformateDateMmDd (mm ++ dd) yyyy)
  = tagged (_reformateDate (dd ++ "."%char :: mm ++ "."%char :: yyyy)).
Proof.
  intros Ld Lm Ly Hd Hm Hy.
  unfold _reformateDateMmDd. rewrite format_two_fields. cbn [rbind ok].
  rewrite (reformateDate_rule dd mm yyyy Hd Hm Hy).
  rewrite reformateDateYyyyMmDd_rule.
  destruct (compact_tokens yyyy mm dd Ly Lm) as (-> & -> & ->).
  destruct (normalise_tokens dd mm yyyy) as [e|[dt [|]]]; reflexivity.
Qed.

Lemma reformateDateMmDd_agrees_with_dotted_witness :
  tagged (_reformateDateMmDd (lit "0600") (lit "2020"))
  = tagged (_reformateDate (lit "00.06.2020")).
Proof.
  apply (reformateDateMmDd_agrees_with_dotted (lit "00") (lit "06") (lit "2020"));
    reflexivity.
Defined.

(** ** The header parser on other files *)

(** The two ways [_getMetadata] can end. *)
Lemma getMetadata_outcome (line : str) (w : World) :
  (exists w1,
     _getMetadata line w = (inr tt, w1) /\
     (forall k, In k (dict_keys (_headerLineContent w)) ->
        exists part, getitem (split ";" line) k = inr part) /\
     (forall k part, In k (dict_keys (_headerLineContent w)) ->
        getitem (split ";" line) k = inr part ->
        dict_get k (_headerLineContent w1) = Some (strip part)) /\
     (forall k, ~ In k (dict_keys (_headerLineContent w)) ->
        dict_get k (_headerLineContent w1) = dict_get k (_headerLineContent w)))
  \/
  (exists w1 k0,
     _getMetadata line w
     = (inl (IndexError (lit "list index out of range")), w1) /\
     In k0 (dict_keys (_headerLineContent w)) /\
     getitem (split ";" line) k0
     = inl (IndexError (lit "list index out of range")) /\
     (forall k e, getitem (split ";" line) k = inl e ->
        dict_get k (_headerLineContent w1) = dict_get k (_headerLineContent w))).
Proof.
  destruct (first_failure (split ";" line) (dict_keys (_headerLineContent w)))
    as [Hok|(done & k0 & todo & e0 & K & Hdone & Hk0)].
  - left. destruct (getMetadata_items_ok _ _ w Hok) as (w1 & G & Hset & Hrest).
    exists w1. split; [exact G|]. split; [exact Hok|]. split; assumption.
  - right. destruct (getMetadata_items_fail _ done k0 todo e0 w Hdone Hk0)
      as (w1 & G & _ & Hrest).
    pose proof (getitem_error _ _ _ Hk0) as ->.
    exists w1, k0. split.
    + unfold _getMetadata, bind at 1, header_keys. rewrite K. exact G.
    + split; [rewrite K; apply in_or_app; right; left; reflexivity|].
      split; [exact Hk0|].
      intros k e Hk. apply Hrest. intros I.
      destruct (Hdone k I) as [part Hp]. congruence.
Qed.

(** X9. When every position of the header dictionary is within the
    segments of the line, [_getMetadata] ends normally: every position
    holds its trimmed segment, the positions and their order are as before,
    nothing is printed. *)
Theorem getMetadata_extracts_every_field (line : str) (w : World) :
  (forall k, In k (dict_keys (_headerLineContent w)) ->
     exists part, getitem (split ";" line) k = inr part) ->
  exists w1,
    _getMetadata line w = (inr tt, w1) /\
    (forall k part, In k (dict_keys (_headerLineContent w)) ->
       getitem (split ";" line) k = inr part ->
       dict_get k (_headerLineContent w1) = Some (strip part)) /\
    dict_keys (_headerLineContent w1) = dict_keys (_headerLineContent w) /\
    stdout w1 = stdout w /\ files w1 = files w.
Proof.
  intros Hok.
  destruct (getMetadata_items_ok _ _ w Hok) as (w1 & G & Hset & _).
  assert (G' : _getMetadata line w = (inr tt, w1)) by exact G.
  destruct (getMetadata_keys _ _ _ _ G') as (F & O & K).
  exists w1. repeat split; assumption.
Qed.

Lemma getMetadata_extracts_every_field_witness :
  exists w1,
    _getMetadata (lit "x; Aletsch ; 17 " ++ nl)
      (labelled (fresh_world []))
    = (inr tt, w1) /\
    dict_get 1 (_headerLineContent w1) = Some (lit "Aletsch") /\
    dict_get 2 (_headerLineContent w1) = Some (lit "17").
Proof.
  destruct (getMetadata_extracts_every_field (lit "x; Aletsch ; 17 " ++ nl)
              (labelled (fresh_world []))) as (w1 & R & Hset & _).
  - intros k [<-|[<-|[]]]; eexists; reflexivity.
  - exists w1. split; [exact R|]. split.
    + rewrite (Hset 1 (lit " Aletsch "));
        [reflexivity | left; reflexivity | reflexivity].
    + rewrite (Hset 2 (lit " 17 " ++ nl));
        [reflexivity | right; left; reflexivity | reflexivity].
Defined.

(** X10. Whatever the lines of an existing file are, [parseHeader] ends
    normally, leaves the file system, the positions of the header
    dictionary and every attribute but the data source as they were, and
    prints at most one line: only line 1 can raise, and only
    [IndexError]. *)
Theorem parseHeader_outcome (self : VawFileReader) (w : World) (vaw : TextIO) :
  files w (_fullFileName self) = Some vaw ->
  exists self' w',
    parseHeader self w = (inr self', w') /\
    same_but_dataSource self self' /\
    files w' = files w /\
    dict_keys (_headerLineContent w') = dict_keys (_headerLineContent w) /\
    (stdout w' = stdout w \/
     stdout w' = stdout w
                 ++ [error_line vaw 1 (IndexError (lit "list index out of range"))]).
Proof.
  intros F. destruct (io_lines vaw) as [|line1 rest] eqn:L.
  - exists self, w. split.
    + unfold parseHeader, bind, open. rewrite F, L. reflexivity.
    + split; [apply same_but_dataSource_refl|]. auto.
  - rewrite (parseHeader_cons self w vaw line1 rest F L).
    destruct (getMetadata_outcome line1 w)
      as [(w1 & G & _)|(w1 & k0 & G & _)]; rewrite G;
      destruct (getMetadata_keys _ _ _ _ G) as (Fw & O & K).
    + set (self1 := if _numberHeaderLines self =? 1
                    then set_dataSource self (attribution line1) else self).
      assert (S1 : same_but_dataSource self self1)
        by (unfold self1; destruct (_numberHeaderLines self =? _); repeat split).
      destruct (parseHeader_lines_later vaw rest 1 self1 w1 ltac:(lia))
        as (self' & Hrun & Hsame & _).
      exists self', w1. split; [exact Hrun|].
      split; [exact (same_but_dataSource_trans _ _ _ S1 Hsame)|]. auto.
    + destruct (parseHeader_lines_later vaw rest 1 self
                  (printed w1 (error_line vaw 1
                     (IndexError (lit "list index out of range")))) ltac:(lia))
        as (self' & Hrun & Hsame & _).
      eexists self', _. split; [exact Hrun|]. split; [exact Hsame|].
      split; [exact Fw|]. split; [exact K|].
      right. simpl. rewrite O. reflexivity.
Qed.

Lemma parseHeader_outcome_witness :
  exists self' w',
    parseHeader (mkReader 1 (-1) (lit "f") None None)
      (labelled (fresh_world [lit "Aletsch" ++ nl; lit "1;2;3" ++ nl]))
    = (inr self', w').
Proof.
  destruct (parseHeader_outcome (mkReader 1 (-1) (lit "f") None None)
              (labelled (fresh_world [lit "Aletsch" ++ nl; lit "1;2;3" ++ nl]))
              (mkTextIO (lit "<f>") [lit "Aletsch" ++ nl; lit "1;2;3" ++ nl])
              eq_refl) as (self' & w' & R & _).
  exists self', w'. exact R.
Defined.

(** X11. With a header of one line, a first line that lacks a field also
    loses the attribution: the line raises before the data source is
    stored, so the data source is what it was. *)
Theorem one_line_header_failure_loses_attribution (self : VawFileReader)
    (w : World) (vaw : TextIO) (line1 : str) (rest : list str) (k : Z) (e : exn) :
  files w (_fullFileName self) = Some vaw ->
  io_lines vaw = line1 :: rest ->
  _numberHeaderLines self = 1 ->
  In k (dict_keys (_headerLineContent w)) ->
  getitem (split ";" line1) k = inl e ->
  exists self' w',
    parseHeader self w = (inr self', w') /\
    _dataSource self' = _dataSource self /\
    stdout w' = stdout w ++ [error_line vaw 1 e].
Proof.
  intros F L H1 Hin Hk.
  rewrite (parseHeader_cons self w vaw line1 rest F L).
  destruct (getMetadata_outcome line1 w)
    as [(w1 & _ & Hok & _)|(w1 & k0 & G & _)].
  - destruct (Hok k Hin) as [part Hp]. congruence.
  - rewrite G. destruct (getMetadata_keys _ _ _ _ G) as (_ & O & _).
    rewrite (getitem_error _ _ _ Hk).
    destruct (parseHeader_lines_later vaw rest 1 self
                (printed w1 (error_line vaw 1
                   (IndexError (lit "list index out of range")))) ltac:(lia))
      as (self' & Hrun & _ & _ & Hno).
    eexists self', _. split; [exact Hrun|]. split.
    + apply Hno. intros n _. lia.
    + simpl. rewrite O. reflexivity.
Qed.

Lemma one_line_header_failure_loses_attribution_witness :
  exists self' w',
    parseHeader (mkReader 1 (-1) (lit "f") None None)
      (labelled (fresh_world [lit "Aletsch;17" ++ nl]))
    = (inr self', w') /\
    _dataSource self' = None /\
    stdout w' = [lit "<f> @ 1: list index out of range"].
Proof.
  apply (one_line_header_failure_loses_attribution
           (mkReader 1 (-1) (lit "f") None None)
           (labelled (fresh_world [lit "Aletsch;17" ++ nl]))
           (mkTextIO (lit "<f>") [lit "Aletsch;17" ++ nl])
           (lit "Aletsch;17" ++ nl) [] 2
           (IndexError (lit "list index out of range")));
    try reflexivity.
  simpl. auto.
Defined.

Lemma dict_set_same (k : Z) (v : str) (d : dict) :
  dict_get k d = Some v -> dict_set k v d = d.
Proof.
  induction d as [|[k' v'] d IH]; simpl; [discriminate|].
  destruct (k =? k') eqn:E.
  - apply Z.eqb_eq in E. intros H. injection H as ->. subst. reflexivity.
  - intros H. rewrite (IH H). reflexivity.
Qed.

(** A dictionary that already holds the trimmed segments is left as it
    is. *)
Lemma getMetadata_items_fixed (lineParts : list str) (keys : list Z) (w : World) :
  (forall k, In k keys ->
     exists part, getitem lineParts k = inr part /\
                  dict_get k (_headerLineContent w) = Some (strip part)) ->
  _getMetadata_items lineParts keys w = (inr tt, w).
Proof.
  induction keys as [|a keys IH]; intros H; [reflexivity|].
  destruct (H a (or_introl eq_refl)) as (part & Hp & Hv).
  simpl. unfold bind at 1, lift. rewrite Hp.
  unfold bind at 1, header_set at 1. rewrite (dict_set_same _ _ _ Hv).
  replace (mkWorld (files w) (_headerLineContent w) (stdout w)) with w
    by (destruct w; reflexivity).
  apply IH. intros k Hin. apply H. right. exact Hin.
Qed.

Lemma reader_eq (a b : VawFileReader) :
  same_but_dataSource a b -> _dataSource b = _dataSource a -> b = a.
Proof.
  destruct a, b. unfold same_but_dataSource. simpl.
  intros (-> & -> & -> & ->) ->. reflexivity.
Qed.

(** X12. Parsing the header again changes nothing: when the first line of
    the file has every position of the dictionary, a second [parseHeader]
    on the reader and the world the first one left gives the same reader and
    the same world. *)
Theorem parseHeader_twice (self : VawFileReader) (w : World) (vaw : TextIO)
    (line1 : str) (rest : list str) :
  files w (_fullFileName self) = Some vaw ->
  io_lines vaw = line1 :: rest ->
  (forall k, In k (dict_keys (_headerLineContent w)) ->
     exists part, getitem (split ";" line1) k = inr part) ->
  exists self1 w1,
    parseHeader self w = (inr self1, w1) /\
    parseHeader self1 w1 = (inr self1, w1).
Proof.
  intros F L Hok.
  destruct (getMetadata_items_ok _ _ w Hok) as (w1 & G0 & Hset & _).
  assert (G : _getMetadata line1 w = (inr tt, w1)) by exact G0.
  destruct (getMetadata_keys _ _ _ _ G) as (Fw & O & K).
  set (selfa := if _numberHeaderLines self =? 1
                then set_dataSource self (attribution line1) else self).
  assert (Sa : same_but_dataSource self selfa)
    by (unfold selfa; destruct (_numberHeaderLines self =? _); repeat split).
  destruct (parseHeader_lines_later vaw rest 1 selfa w1 ltac:(lia))
    as (self1 & Hrun1 & Hsame1 & Hat1 & Hno1).
  pose proof (same_but_dataSource_trans _ _ _ Sa Hsame1) as S1.
  exists self1, w1. split.
  - rewrite (parseHeader_cons self w vaw line1 rest F L), G. exact Hrun1.
  - assert (F1 : files w1 (_fullFileName self1) = Some vaw).
    { destruct S1 as (_ & _ & -> & _). rewrite Fw. exact F. }
    rewrite (parseHeader_cons self1 w1 vaw line1 rest F1 L).
    assert (G1 : _getMetadata line1 w1 = (inr tt, w1)).
    { unfold _getMetadata, bind at 1, header_keys.
      apply getMetadata_items_fixed. intros k Hin. rewrite K in Hin.
      destruct (Hok k Hin) as [part Hp]. exists part.
      split; [exact Hp | exact (Hset k part Hin Hp)]. }
    rewrite G1.
    set (selfb := if _numberHeaderLines self1 =? 1
                  then set_dataSource self1 (attribution line1) else self1).
    assert (Sb : same_but_dataSource self1 selfb)
      by (unfold selfb; destruct (_numberHeaderLines self1 =? _); repeat split).
    destruct (parseHeader_lines_later vaw rest 1 selfb w1 ltac:(lia))
      as (self2 & Hrun2 & Hsame2 & Hat2 & Hno2).
    rewrite Hrun2. f_equal. f_equal.
    apply reader_eq; [exact (same_but_dataSource_trans _ _ _ Sb Hsame2)|].
    assert (N1 : _numberHeaderLines self1 = _numberHeaderLines self)
      by apply S1.
    assert (Na : _numberHeaderLines selfa = _numberHeaderLines self)
      by apply Sa.
    assert (Nb : _numberHeaderLines selfb = _numberHeaderLines self)
      by (destruct Sb as (-> & _); exact N1).
    destruct (Z.eq_dec (_numberHeaderLines self) 1) as [E|E].
    + rewrite Hno2 by (intros n _; lia).
      rewrite Hno1 by (intros n _; lia).
      unfold selfb, selfa. rewrite N1, E. reflexivity.
    + assert (Eb : selfb = self1).
      { unfold selfb. rewrite N1.
        apply Z.eqb_neq in E. rewrite E. reflexivity. }
      rewrite Eb in *.
      destruct (Z_le_gt_dec 2 (_numberHeaderLines self)) as [Lo|Lo];
        [destruct (nth_error rest (Z.to_nat (_numberHeaderLines self - 2)))
           as [line|] eqn:Hn|].
      * rewrite (Hat2 _ line Hn) by lia.
        rewrite (Hat1 _ line Hn) by lia. reflexivity.
      * apply nth_error_None in Hn. apply Hno2. intros n Hlt. lia.
      * apply Hno2. intros n Hlt. lia.
Qed.

Lemma parseHeader_twice_witness :
  exists self1 w1,
    parseHeader (mkReader 2 (-1) (lit "f") None None)
      (labelled (fresh_world [lit "x; Aletsch ; 17 " ++ nl; lit "VAW" ++ nl]))
    = (inr self1, w1) /\
    parseHeader self1 w1 = (inr self1, w1).
Proof.
  apply (parseHeader_twice (mkReader 2 (-1) (lit "f") None None)
           (labelled (fresh_world [lit "x; Aletsch ; 17 " ++ nl; lit "VAW" ++ nl]))
           (mkTextIO (lit "<f>") [lit "x; Aletsch ; 17 " ++ nl; lit "VAW" ++ nl])
           (lit "x; Aletsch ; 17 " ++ nl) [lit "VAW" ++ nl]);
    try reflexivity.
  intros k [<-|[<-|[]]]; eexists; reflexivity.
Defined.

(** ** Construction in other worlds *)


(** What a successful construction went through. *)
Lemma init_inr (nhl : Z) (fullFileName : str) (glaciers : list (str * Glacier))
    (w : World) (self : VawFileReader) (w1 : World) :
  __init__ nhl fullFileName glaciers w = (inr self, w1) ->
  exists s idText g,
    init_header nhl fullFileName w = (inr s, w1) /\
    dict_get _HEADER_POSITION_VAWIDENTIFIER (_headerLineContent w1) = Some idText /\
    py_int idText = inr (pkVaw g) /\
    last_match (pkVaw g) (map snd glaciers) = Some g /\
    self = set_glacier s g.
Proof.
  unfold __init__, bind at 1.
  destruct (init_header nhl fullFileName w) as [[e|s] w0] eqn:H;
    [discriminate|].
  destruct (init_header_fields _ _ _ _ _ H) as (_ & [name Hname] & [idText Hid]).
  destruct (py_int idText) as [e|X] eqn:HX.
  - unfold init_resolve, bind at 1, header_get at 1. rewrite Hid.
    unfold bind at 1, lift at 1. rewrite HX. discriminate.
  - rewrite (init_resolve_run glaciers s w0 idText name X Hid Hname HX).
    destruct (last_match X (map snd glaciers)) as [g|] eqn:L; [|discriminate].
    intros R. injection R as <- <-.
    destruct (last_match_pkVaw _ _ _ L) as [_ E]. subst X.
    exists s, idText, g. auto.
Qed.

Lemma parseHeader_no_header_line (self : VawFileReader) (w : World)
    (vaw : TextIO) (s : VawFileReader) (w' : World) :
  files w (_fullFileName self) = Some vaw ->
  _numberHeaderLines self < 1 \/
  Z.of_nat (List.length (io_lines vaw)) < _numberHeaderLines self ->
  parseHeader self w = (inr s, w') ->
  _dataSource s = _dataSource self.
Proof.
  intros F Hout. destruct (io_lines vaw) as [|line1 rest] eqn:L.
  - unfold parseHeader, bind, open. rewrite F, L.
    intros R. injection R as <- _. reflexivity.
  - rewrite (parseHeader_cons self w vaw line1 rest F L).
    simpl List.length in Hout.
    assert (N1 : (_numberHeaderLines self =? 1) = false)
      by (apply Z.eqb_neq; lia).
    rewrite N1.
    destruct (_getMetadata line1 w) as [[e|u] w1].
    + destruct (parseHeader_lines_later vaw rest 1 self
                  (printed w1 (error_line vaw 1 e)) ltac:(lia))
        as (self' & Hrun & _ & _ & Hno).
      rewrite Hrun. intros R. injection R as <- _.
      apply Hno. intros n Hlt. lia.
    + destruct (parseHeader_lines_later vaw rest 1 self w1 ltac:(lia))
        as (self' & Hrun & _ & _ & Hno).
      rewrite Hrun. intros R. injection R as <- _.
      apply Hno. intros n Hlt. lia.
Qed.

(** X13. A reader whose header-line count is below 1 or above the number
    of lines of its file has no data source after construction; the count
    of the base class is -1, so no reader of the base class has one. *)
Theorem construction_without_data_source (nhl : Z) (fullFileName : str)
    (glaciers : list (str * Glacier)) (w : World) (vaw : TextIO)
    (self : VawFileReader) (w1 : World) :
  __init__ nhl fullFileName glaciers w = (inr self, w1) ->
  files w fullFileName = Some vaw ->
  nhl < 1 \/ Z.of_nat (List.length (io_lines vaw)) < nhl ->
  _dataSource self = None /\ base_numberHeaderLines < 1.
Proof.
  intros R F Hout. split; [|reflexivity].
  apply init_inr in R as (s & idText & g & H & _ & _ & _ & ->).
  apply init_header_inr in H as (w2 & P & _).
  exact (parseHeader_no_header_line
           (mkReader nhl (-1) fullFileName None None) (labelled w) vaw s w2
           F Hout P).
Qed.

Lemma construction_without_data_source_witness :
  _dataSource
    (mkReader base_numberHeaderLines (-1) (lit "f") None
       (Some (mkGlacier 17 (lit "Aletsch")))) = None /\
  base_numberHeaderLines < 1.
Proof.
  refine (construction_without_data_source base_numberHeaderLines (lit "f")
            [(lit "a", mkGlacier 17 (lit "Aletsch"))]
            (fresh_world [lit "x; Aletsch ; 17 " ++ nl])
            (mkTextIO (lit "<f>") [lit "x; Aletsch ; 17 " ++ nl]) _
            (mkWorld (one_file [lit "x; Aletsch ; 17 " ++ nl])
               [(1, lit "Aletsch"); (2, lit "17")]
               [lit "Given data file -> f"]) _ eq_refl _).
  - vm_compute. reflexivity.
  - left. reflexivity.
Defined.






Lemma find_glacier_from (X : Z) (values : list Glacier) (acc : option Glacier) :
  fold_left
    (fun glacierFound glacier =>
       if pkVaw glacier =? X then Some glacier else glacierFound)
    values acc
  = match find_glacier X values with
    | Some g => Some g
    | None => acc
    end.
Proof.
  unfold find_glacier. revert acc.
  induction values as [|g values IH]; intros acc; [reflexivity|].
  simpl. destruct (pkVaw g =? X).
  - rewrite (IH (Some g)).
    destruct (fold_left _ values None); reflexivity.
  - apply IH.
Qed.

(** X16. The scan over two registries put one after the other gives the
    match of the second when it has one, and the match of the first
    otherwise: entries that come later take precedence. *)
Theorem find_glacier_app (X : Z) (first second : list Glacier) :
  find_glacier X (first ++ second)
  = match find_glacier X second with
    | Some g => Some g
    | None => find_glacier X first
    end.
Proof.
  unfold find_glacier at 1. rewrite fold_left_app.
  apply find_glacier_from.
Qed.

Lemma filter_one_permutation (X : Z) (values values' : list Glacier) (g : Glacier) :
  Permutation values values' ->
  filter (fun g => pkVaw g =? X) values = [g] ->
  filter (fun g => pkVaw g =? X) values' = [g].
Proof.
  intros P H.
  assert (Q : Permutation [g] (filter (fun g => pkVaw g =? X) values')).
  { rewrite <- H. clear H. induction P; simpl.
    - constructor.
    - destruct (pkVaw x =? X); [constructor|]; exact IHP.
    - destruct (pkVaw x =? X), (pkVaw y =? X);
        first [apply perm_swap | apply Permutation_refl].
    - eapply perm_trans; eassumption. }
  apply Permutation_length_1_inv in Q. exact Q.
Qed.

(** X17. When exactly one value of the registry has the identifier, the
    scan finds it in whatever order the registry gives its values. *)
Theorem find_glacier_unique_any_order (X : Z) (values values' : list Glacier)
    (g : Glacier) :
  Permutation values values' ->
  filter (fun g => pkVaw g =? X) values = [g] ->
  find_glacier X values = Some g /\ find_glacier X values' = Some g.
Proof.
  intros P H.
  pose proof (filter_one_permutation X values values' g P H) as H'.
  rewrite !find_glacier_last. unfold last_match. rewrite H, H'.
  split; reflexivity.
Qed.

Lemma find_glacier_unique_any_order_witness :
  find_glacier 17 [mkGlacier 17 (lit "A"); mkGlacier 5 (lit "B")]
  = Some (mkGlacier 17 (lit "A")) /\
  find_glacier 17 [mkGlacier 5 (lit "B"); mkGlacier 17 (lit "A")]
  = Some (mkGlacier 17 (lit "A")).
Proof.
  apply (find_glacier_unique_any_order 17); [apply perm_swap | reflexivity].
Defined.

(** The identifier left in the dictionary is the one of the glacier the
    reader is bound to. *)
Lemma init_binds_header_glacier (nhl : Z) (fullFileName : str)
    (glaciers : list (str * Glacier)) (w : World) (self : VawFileReader)
    (w1 : World) :
  __init__ nhl fullFileName glaciers w = (inr self, w1) ->
  exists idText g,
    dict_get _HEADER_POSITION_VAWIDENTIFIER (_headerLineContent w1) = Some idText /\
    py_int idText = inr (pkVaw g) /\
    _glacier self = Some g /\
    In g (map snd glaciers).
Proof.
  intros R. apply init_inr in R as (s & idText & g & _ & Hid & HX & L & ->).
  exists idText, g. split; [exact Hid|]. split; [exact HX|].
  split; [reflexivity|]. apply (last_match_pkVaw _ _ _ L).
Qed.

(** X18. After a successful construction the reader has the file name and
    the header-line count it was made with and a glacier of the registry;
    the identifier field left in the class dictionary reads as the [pkVaw]
    of that glacier; the file system is as before and the last line printed
    names the file. *)
Theorem construction_postcondition (nhl : Z) (fullFileName : str)
    (glaciers : list (str * Glacier)) (w : World) (self : VawFileReader)
    (w1 : World) :
  __init__ nhl fullFileName glaciers w = (inr self, w1) ->
  (exists idText g,
     dict_get _HEADER_POSITION_VAWIDENTIFIER (_headerLineContent w1) = Some idText /\
     py_int idText = inr (pkVaw g) /\
     _glacier self = Some g /\
     In g (map snd glaciers)) /\
  _fullFileName self = fullFileName /\
  _numberHeaderLines self = nhl /\
  files w1 = files w /\
  exists out, stdout w1 = out ++ [lit "Given data file -> " ++ fullFileName].
Proof.
  intros R. split; [exact (init_binds_header_glacier _ _ _ _ _ _ R)|].
  apply init_inr in R as (s & idText & g & H & _ & _ & _ & ->).
  apply init_header_inr in H as (w2 & P & -> & (N & _ & Fn & _) & _).
  split; [exact Fn|]. split; [exact N|].
  destruct (files (labelled w) fullFileName) as [vaw|] eqn:F.
  - destruct (parseHeader_total (mkReader nhl (-1) fullFileName None None)
                (labelled w) vaw F) as (s' & w' & P' & _ & Fw & _).
    rewrite P' in P. injection P as _ <-.
    split; [exact Fw|]. exists (stdout w'). reflexivity.
  - unfold parseHeader, bind at 1, open in P. simpl _fullFileName in P.
    rewrite F in P. discriminate P.
Qed.

Lemma construction_postcondition_witness :
  exists out,
    [lit "Given data file -> f"] = out ++ [lit "Given data file -> " ++ lit "f"].
Proof.
  refine (proj2 (proj2 (proj2 (proj2
    (construction_postcondition 1 (lit "f")
       [(lit "a", mkGlacier 17 (lit "Aletsch"))]
       (fresh_world [lit "x; Aletsch ; 17 " ++ nl])
       (mkReader 1 (-1) (lit "f") (Some (lit "x; Aletsch ; 17"))
          (Some (mkGlacier 17 (lit "Aletsch"))))
       (mkWorld (one_file [lit "x; Aletsch ; 17 " ++ nl])
          [(1, lit "Aletsch"); (2, lit "17")]
          [lit "Given data file -> f"]) _))))).
  vm_compute. reflexivity.
Defined.

(** X19. The header dictionary belongs to the class: constructing a second
    reader replaces what the first one left, so the identifier field then
    reads as the [pkVaw] of the second reader's glacier, and no longer as
    that of the first when the two differ. *)
Theorem second_reader_overwrites_header (nA nB : Z) (fA fB : str)
    (glA glB : list (str * Glacier)) (w wA wB : World) (a b : VawFileReader) :
  __init__ nA fA glA w = (inr a, wA) ->
  __init__ nB fB glB wA = (inr b, wB) ->
  exists ga gb idA idB,
    _glacier a = Some ga /\ _glacier b = Some gb /\
    dict_get _HEADER_POSITION_VAWIDENTIFIER (_headerLineContent wA) = Some idA /\
    py_int idA = inr (pkVaw ga) /\
    dict_get _HEADER_POSITION_VAWIDENTIFIER (_headerLineContent wB) = Some idB /\
    py_int idB = inr (pkVaw gb) /\
    (pkVaw ga <> pkVaw gb -> idB <> idA).
Proof.
  intros RA RB.
  destruct (init_binds_header_glacier _ _ _ _ _ _ RA) as (idA & ga & DA & IA & GA & _).
  destruct (init_binds_header_glacier _ _ _ _ _ _ RB) as (idB & gb & DB & IB & GB & _).
  exists ga, gb, idA, idB. repeat split; try assumption.
  intros N E. subst idB. congruence.
Qed.

Lemma second_reader_overwrites_header_witness :
  exists ga gb idA idB,
    _glacier (mkReader 1 (-1) (lit "f") (Some (lit "x; Aletsch ; 17"))
                (Some (mkGlacier 17 (lit "Aletsch")))) = Some ga /\
    _glacier (mkReader 1 (-1) (lit "g") (Some (lit "x; Rhone ; 1"))
                (Some (mkGlacier 1 (lit "Rhone")))) = Some gb /\
    dict_get _HEADER_POSITION_VAWIDENTIFIER
      [(1, lit "Aletsch"); (2, lit "17")] = Some idA /\
    py_int idA = inr (pkVaw ga) /\
    dict_get _HEADER_POSITION_VAWIDENTIFIER
      [(1, lit "Rhone"); (2, lit "1")] = Some idB /\
    py_int idB = inr (pkVaw gb) /\
    (pkVaw ga <> pkVaw gb -> idB <> idA).
Proof.
  refine (second_reader_overwrites_header 1 1 (lit "f") (lit "g")
    [(lit "a", mkGlacier 17 (lit "Aletsch")); (lit "r", mkGlacier 1 (lit "Rhone"))]
    [(lit "a", mkGlacier 17 (lit "Aletsch")); (lit "r", mkGlacier 1 (lit "Rhone"))]
    (mkWorld (fun name =>
                if str_eqb name (lit "f")
                then Some (mkTextIO (lit "<f>") [lit "x; Aletsch ; 17 " ++ nl])
                else if str_eqb name (lit "g")
                then Some (mkTextIO (lit "<g>") [lit "x; Rhone ; 1 " ++ nl])
                else None) [] [])
    (mkWorld _ [(1, lit "Aletsch"); (2, lit "17")] [lit "Given data file -> f"])
    (mkWorld _ [(1, lit "Rhone"); (2, lit "1")]
       [lit "Given data file -> f"; lit "Given data file -> g"])
    _ _ _ _); vm_compute; reflexivity.
Defined.

(** ** Whitespace after a dotted token *)










(** ** What the header parser does not read *)

Lemma getitem_tail {A} (a : A) (l : list A) (k : Z) :
  1 <= k -> getitem (a :: l) k = getitem l (k - 1).
Proof.
  intros H. unfold getitem.
  change (List.length (a :: l)) with (S (List.length l)).
  destruct (Z.ltb_spec k 0) as [N|_]; [lia|].
  destruct (Z.ltb_spec (k - 1) 0) as [N|_]; [lia|].
  replace (Z.to_nat k) with (S (Z.to_nat (k - 1))) by lia.
  destruct (Z.leb_spec 0 k) as [_|N]; [|lia].
  destruct (Z.leb_spec 0 (k - 1)) as [_|N]; [|lia].
  destruct (Z.ltb_spec k (Z.of_nat (S (List.length l)))) as [L1|L1];
    destruct (Z.ltb_spec (k - 1) (Z.of_nat (List.length l))) as [L2|L2];
    try lia; reflexivity.
Qed.

Lemma getMetadata_items_ext (l1 l2 : list str) (keys : list Z) :
  (forall k, In k keys -> getitem l1 k = getitem l2 k) ->
  forall w, _getMetadata_items l1 keys w = _getMetadata_items l2 keys w.
Proof.
  induction keys as [|a keys IH]; intros H w; [reflexivity|].
  simpl. unfold bind at 1 3, lift.
  rewrite (H a (or_introl eq_refl)).
  destruct (getitem l2 a) as [e|part]; [reflexivity|].
  unfold bind at 1 2, header_set at 1 2.
  apply IH. intros k Hin. apply H. right. exact Hin.
Qed.

(** X21. Positions count from 0, so with positions of 1 and above, as the
    two of the base class are, the segment before the first semicolon is
    never read: two first lines that differ in it only are parsed alike. *)
Theorem getMetadata_ignores_first_segment (a b rest : str) (w : World) :
  has_char ";" a = false -> has_char ";" b = false ->
  (forall k, In k (dict_keys (_headerLineContent w)) -> 1 <= k) ->
  _getMetadata (a ++ ";"%char :: rest) w = _getMetadata (b ++ ";"%char :: rest) w.
Proof.
  intros Ha Hb Hk. unfold _getMetadata, bind at 1 2, header_keys.
  rewrite (split_app_sep _ _ _ Ha), (split_app_sep _ _ _ Hb).
  apply getMetadata_items_ext. intros k Hin.
  rewrite !getitem_tail by (apply Hk, Hin). reflexivity.
Qed.

Lemma getMetadata_ignores_first_segment_witness :
  _getMetadata (lit "anything" ++ ";"%char :: lit "Aletsch;17")
    (labelled (fresh_world []))
  = _getMetadata (lit "" ++ ";"%char :: lit "Aletsch;17")
      (labelled (fresh_world [])).
Proof.
  apply (getMetadata_ignores_first_segment (lit "anything") (lit "")
           (lit "Aletsch;17") (labelled (fresh_world [])));
    try reflexivity.
  intros k H. vm_compute in H. destruct H as [<-|[<-|[]]]; lia.
Defined.

Lemma parseHeader_lines_cons (vaw : TextIO) (c : Z) (line : str)
    (rest : list str) (self : VawFileReader) (w : World) :
  parseHeader_lines vaw c (line :: rest) self w
  = match parseHeader_line (c + 1) line self w with
    | (inl e, w1) =>
        parseHeader_lines vaw (c + 1) rest self
          (printed w1 (error_line vaw (c + 1) e))
    | (inr s, w1) => parseHeader_lines vaw (c + 1) rest s w1
    end.
Proof.
  simpl. unfold bind at 1, try_except.
  destruct (parseHeader_line (c + 1) line self w) as [[e|s] w1]; [|reflexivity].
  rewrite parseHeader_except_run. reflexivity.
Qed.

(** X22. The loop of [parseHeader] runs over the whole file, but the lines
    after the header do nothing: once the file has its first line and as
    many lines as the header-line count, further lines change neither the
    reader nor the world the loop ends with. *)
Theorem parseHeader_ignores_later_lines (vaw : TextIO) (line1 : str)
    (rest extra : list str) (self : VawFileReader) (w : World) :
  _numberHeaderLines self <= Z.of_nat (List.length (line1 :: rest)) ->
  parseHeader_lines vaw 0 (line1 :: rest ++ extra) self w
  = parseHeader_lines vaw 0 (line1 :: rest) self w.
Proof.
  intros Hn. simpl List.length in Hn.
  assert (Later : forall s0 w0,
            _numberHeaderLines s0 = _numberHeaderLines self ->
            parseHeader_lines vaw 1 (rest ++ extra) s0 w0
            = parseHeader_lines vaw 1 rest s0 w0).
  { intros s0 w0 N0.
    destruct (parseHeader_lines_later vaw (rest ++ extra) 1 s0 w0 ltac:(lia))
      as (s1 & R1 & S1 & At1 & No1).
    destruct (parseHeader_lines_later vaw rest 1 s0 w0 ltac:(lia))
      as (s2 & R2 & S2 & At2 & No2).
    rewrite R1, R2. f_equal. f_equal.
    assert (E1 : s1 = mkReader (_numberHeaderLines s0) (_numberDataLines s0)
                        (_fullFileName s0) (_dataSource s1) (_glacier s0))
      by (destruct s1, S1 as (A & B & C & D); simpl in *; congruence).
    assert (E2 : s2 = mkReader (_numberHeaderLines s0) (_numberDataLines s0)
                        (_fullFileName s0) (_dataSource s2) (_glacier s0))
      by (destruct s2, S2 as (A & B & C & D); simpl in *; congruence).
    rewrite E1, E2. f_equal.
    destruct (Z_le_gt_dec 2 (_numberHeaderLines s0)) as [Lo|Lo].
    - destruct (nth_error rest (Z.to_nat (_numberHeaderLines s0 - 2)))
        as [line|] eqn:Hr.
      + rewrite (At2 _ line Hr) by lia.
        apply (At1 (Z.to_nat (_numberHeaderLines s0 - 2)) line); [|lia].
        rewrite nth_error_app1; [exact Hr|].
        apply nth_error_Some. congruence.
      + apply nth_error_None in Hr. lia.
    - rewrite No1 by (intros n _; lia).
      rewrite No2 by (intros n _; lia). reflexivity. }
  rewrite !parseHeader_lines_cons. change (0 + 1) with 1.
  destruct (parseHeader_line 1 line1 self w) as [[e|s0] w0] eqn:P.
  - apply Later. reflexivity.
  - apply Later. rewrite parseHeader_line_first in P.
    destruct (_getMetadata line1 w) as [[e|u] w1]; [discriminate P|].
    injection P as <- _.
    destruct (_numberHeaderLines self =? 1); reflexivity.
Qed.

Lemma parseHeader_ignores_later_lines_witness :
  parseHeader_lines (mkTextIO (lit "<f>") []) 0
    (lit "x;Aletsch;17" :: [lit "source"] ++ [lit "1;2;3"; lit "data"])
    (mkReader 2 (-1) (lit "f") None None) (labelled (fresh_world []))
  = parseHeader_lines (mkTextIO (lit "<f>") []) 0
      (lit "x;Aletsch;17" :: [lit "source"])
      (mkReader 2 (-1) (lit "f") None None) (labelled (fresh_world [])).
Proof.
  apply (parseHeader_ignores_later_lines (mkTextIO (lit "<f>") [])
           (lit "x;Aletsch;17") [lit "source"] [lit "1;2;3"; lit "data"]
           (mkReader 2 (-1) (lit "f") None None) (labelled (fresh_world []))).
  simpl. lia.
Defined.
